(** * Signed GraphQL dispatcher and image resizer of the Powertools workshop

    Shallow embedding of [AppSyncOperations] and [ImageResizer]
    (src/functions/dotnet/module1/AppSyncOperations.cs) together with the
    properties the specification states about them.

    Layout: data model, the modelled parts of the .NET base library and of
    the AWS SDK the code calls, the program itself, and then the lemmas. *)

From Stdlib Require Import List ZArith NArith Lia Bool Ascii String.
From Stdlib Require Import Strings.Byte.
From Stdlib Require Import DecimalN DecimalZ DecimalFacts.
Import ListNotations.

Set Implicit Arguments.

(* ================================================================== *)
(** ** Strings and bytes *)

(** A .NET [string] is a sequence of UTF-16 code units. *)
Definition char := N.
Definition text := list char.

Definition txt (s : string) : text :=
  List.map N_of_ascii (list_ascii_of_string s).

Definition text_eqb (a b : text) : bool :=
  if list_eq_dec N.eq_dec a b then true else false.

(** [string.Join(separator, values)] *)
Fixpoint Join (separator : text) (values : list text) : text :=
  match values with
  | [] => []
  | [v] => v
  | v :: rest => v ++ separator ++ Join separator rest
  end.

(** Comparison without case: the letters a..z of ASCII are folded.  Header
    names are ASCII, and on ASCII texts the comparison
    [StringComparison.InvariantCultureIgnoreCase] of the dispatcher and the
    name comparers of the header collections are this one. *)
Definition ToUpper (c : char) : char :=
  if ((97 <=? c) && (c <=? 122))%N then (c - 32)%N else c.

Definition EqualsIgnoreCase (a b : text) : bool :=
  text_eqb (List.map ToUpper a) (List.map ToUpper b).

(** [char.IsWhiteSpace] (the Unicode separators and the control characters
    U+0009..U+000D and U+0085) and [string.IsNullOrWhiteSpace]; a [string]
    that may be [null] is an [option text]. *)
Definition IsWhiteSpace (c : char) : bool :=
  (((9 <=? c) && (c <=? 13)) || (c =? 32) || (c =? 133) || (c =? 160)
   || (c =? 5760) || ((8192 <=? c) && (c <=? 8202)) || (c =? 8232)
   || (c =? 8233) || (c =? 8239) || (c =? 8287) || (c =? 12288))%N.

Definition IsNullOrWhiteSpace (s : option text) : bool :=
  match s with
  | None => true
  | Some s => forallb IsWhiteSpace s
  end.

Module ASCII.
(** [Encoding.ASCII]: a code unit outside of 0..127 is encoded as the
    replacement ['?'], and a byte outside of 0..127 decodes to ['?']. *)
Definition question : N := 63.

Definition narrow (c : N) : N := if (c <? 128)%N then c else question.

Definition encode (c : char) : byte :=
  match Byte.of_N (narrow c) with
  | Some b => b
  | None => x3f
  end.

Definition decode (b : byte) : char := narrow (Byte.to_N b).

Definition GetBytes (s : text) : list byte := List.map encode s.
Definition GetString (bs : list byte) : text := List.map decode bs.

Definition WebName : text := txt "us-ascii".

Definition is_ascii (s : text) : bool := forallb (fun c => (c <? 128)%N) s.
End ASCII.

(* ================================================================== *)
(** ** Exceptions and outcomes *)

Inductive Exception :=
| ArgumentNullException (paramName : text)
| NullReferenceException
| UriFormatException
  (** raised by [FallbackCredentialsFactory.GetCredentials] when no provider
      of the chain yields credentials *)
| AmazonServiceException (message : text)
  (** raised by [HttpClient.SendAsync] on a transport failure (no status
      code) and by [EnsureSuccessStatusCode] (with the status code) *)
| HttpRequestException (message : text) (StatusCode : option Z).

Inductive Outcome (A : Type) :=
| Returned (a : A)
| Thrown (e : Exception).
Arguments Returned {A} a.
Arguments Thrown {A} e.

Definition bindO {A B} (o : Outcome A) (k : A -> Outcome B) : Outcome B :=
  match o with
  | Returned a => k a
  | Thrown e => Thrown e
  end.

(* ================================================================== *)
(** ** Decimal and hexadecimal digits *)

Fixpoint digits_of_uint (u : Decimal.uint) : text :=
  match u with
  | Decimal.Nil => []
  | Decimal.D0 u => 48%N :: digits_of_uint u
  | Decimal.D1 u => 49%N :: digits_of_uint u
  | Decimal.D2 u => 50%N :: digits_of_uint u
  | Decimal.D3 u => 51%N :: digits_of_uint u
  | Decimal.D4 u => 52%N :: digits_of_uint u
  | Decimal.D5 u => 53%N :: digits_of_uint u
  | Decimal.D6 u => 54%N :: digits_of_uint u
  | Decimal.D7 u => 55%N :: digits_of_uint u
  | Decimal.D8 u => 56%N :: digits_of_uint u
  | Decimal.D9 u => 57%N :: digits_of_uint u
  end.

(** Invariant-culture [int.ToString()]. *)
Definition Int_ToString (z : Z) : text :=
  match Z.to_int z with
  | Decimal.Pos u => digits_of_uint u
  | Decimal.Neg u => 45%N :: digits_of_uint u
  end.

Definition is_digit (c : char) : bool := ((48 <=? c) && (c <=? 57))%N.

(** Reads the longest run of decimal digits at the head of [s]. *)
Fixpoint uint_of_digits (s : text) : Decimal.uint * text :=
  match s with
  | [] => (Decimal.Nil, [])
  | c :: rest =>
      if is_digit c then
        let (u, rest') := uint_of_digits rest in
        ((if c =? 48 then Decimal.D0 else if c =? 49 then Decimal.D1
          else if c =? 50 then Decimal.D2 else if c =? 51 then Decimal.D3
          else if c =? 52 then Decimal.D4 else if c =? 53 then Decimal.D5
          else if c =? 54 then Decimal.D6 else if c =? 55 then Decimal.D7
          else if c =? 56 then Decimal.D8 else Decimal.D9)%N u, rest')
      else (Decimal.Nil, s)
  end.

Definition hex_digit (n : N) : char := (if n <? 10 then 48 + n else 87 + n)%N.

Definition hex_value (c : char) : option N :=
  (if (48 <=? c) && (c <=? 57) then Some (c - 48)
   else if (97 <=? c) && (c <=? 102) then Some (c - 87)
   else if (65 <=? c) && (c <=? 70) then Some (c - 55)
   else None)%N.

(* ================================================================== *)
(** ** JSON: the values a payload holds, the writer of Newtonsoft.Json and
       a reader *)

(** A decimal digit, and one digit or more. *)
Inductive digit := d0 | d1 | d2 | d3 | d4 | d5 | d6 | d7 | d8 | d9.

Record Digits := { leading : digit; following : list digit }.

(** The text that the runtime writes for a finite number that is not of an
    integer type ([double.ToString("R")], [decimal.ToString()], to which
    the serializer adds [.0] when there is neither a fraction nor an
    exponent): a sign, the digits before the point, and a fraction, an
    exponent with its sign, or both.  A number is modelled by this text. *)
Inductive Exponent := Exp (minus : bool) (digits : Digits).

Inductive FloatTail :=
| Fraction (fraction : Digits) (exponent : option Exponent)
| NoFraction (exponent : Exponent).

Record FloatText := { negative : bool; whole : Digits; ending : FloatTail }.

(** A [double] or [float]: finite, or one of the three special values. *)
Inductive FloatValue :=
| Finite (t : FloatText)
| NaN
| PositiveInfinity
| NegativeInfinity.

(** A .NET [object] as [JsonConvert.SerializeObject] writes it, that is,
    as a JSON value: null, a boolean, a number of an integer type, another
    number, a string, a sequence, or a dictionary or an object with its
    properties (in enumeration order).  The serializer writes a date, a
    GUID, a URI or an array of bytes as a string and a value of an
    enumeration as an integer; they are these here. *)
#[local] Unset Elimination Schemes.
Inductive JToken :=
| JNull
| JBool (b : bool)
| JInteger (z : Z)
| JFloat (x : FloatValue)
| JString (s : text)
| JArray (items : list JToken)
| JObject (members : list (text * JToken)).
#[local] Set Elimination Schemes.

Module Json.
Definition quote : char := 34%N.
Definition backslash : char := 92%N.
Definition comma : char := 44%N.
Definition colon : char := 58%N.

(** The two-character escapes of [JavaScriptUtils.WriteEscapedJavaScriptString]
    under [StringEscapeHandling.Default]: the letter after the backslash. *)
Definition short_escape (c : char) : option char :=
  (if c =? 8 then Some 98 else if c =? 9 then Some 116
   else if c =? 10 then Some 110 else if c =? 12 then Some 102
   else if c =? 13 then Some 114 else if c =? 34 then Some 34
   else if c =? 92 then Some 92 else None)%N.

(** The remaining control characters, U+0085, U+2028 and U+2029 are
    written as [\uXXXX]; every other character, those outside of ASCII
    included, is written as it is. *)
Definition needs_unicode_escape (c : char) : bool :=
  ((c <? 32) || (c =? 133) || (c =? 8232) || (c =? 8233))%N.

Definition ToCharAsUnicode (c : char) : text :=
  [backslash; 117%N;
   hex_digit ((c / 4096) mod 16); hex_digit ((c / 256) mod 16);
   hex_digit ((c / 16) mod 16); hex_digit (c mod 16)].

Definition escape_char (c : char) : text :=
  match short_escape c with
  | Some e => [backslash; e]
  | None => if needs_unicode_escape c then ToCharAsUnicode c else [c]
  end.

Definition WriteString (s : text) : text :=
  quote :: flat_map escape_char s ++ [quote].

Definition digit_char (d : digit) : char :=
  match d with
  | d0 => 48 | d1 => 49 | d2 => 50 | d3 => 51 | d4 => 52
  | d5 => 53 | d6 => 54 | d7 => 55 | d8 => 56 | d9 => 57
  end%N.

Definition write_digits (ds : Digits) : text :=
  List.map digit_char (leading ds :: following ds).

(** [E+20], [E-07] *)
Definition write_exponent (e : Exponent) : text :=
  match e with
  | Exp minus ds => 69%N :: (if minus then 45%N else 43%N) :: write_digits ds
  end.

Definition write_float_text (t : FloatText) : text :=
  (if negative t then [45%N] else []) ++
  write_digits (whole t) ++
  match ending t with
  | Fraction f None => 46%N :: write_digits f
  | Fraction f (Some e) => 46%N :: write_digits f ++ write_exponent e
  | NoFraction e => write_exponent e
  end.

(** [JsonConvert.ToString(double)] with [FloatFormatHandling.String], the
    default: the special values are written as strings. *)
Definition Float_ToString (x : FloatValue) : text :=
  match x with
  | Finite t => write_float_text t
  | NaN => quote :: txt "NaN" ++ [quote]
  | PositiveInfinity => quote :: txt "Infinity" ++ [quote]
  | NegativeInfinity => quote :: txt "-Infinity" ++ [quote]
  end.

(** [JsonTextWriter] with [Formatting.None]. *)
Fixpoint WriteToken (t : JToken) : text :=
  match t with
  | JNull => txt "null"
  | JBool true => txt "true"
  | JBool false => txt "false"
  | JInteger z => Int_ToString z
  | JFloat x => Float_ToString x
  | JString s => WriteString s
  | JArray items =>
      91%N ::
      (fix elements (l : list JToken) : text :=
         match l with
         | [] => [93%N]
         | x :: rest =>
             WriteToken x ++
             match rest with
             | [] => [93%N]
             | _ :: _ => comma :: elements rest
             end
         end) items
  | JObject members =>
      123%N ::
      (fix properties (l : list (text * JToken)) : text :=
         match l with
         | [] => [125%N]
         | (k, x) :: rest =>
             WriteString k ++ colon :: WriteToken x ++
             match rest with
             | [] => [125%N]
             | _ :: _ => comma :: properties rest
             end
         end) members
  end.

(** *** Reader *)

Fixpoint strip_prefix (p s : text) : option text :=
  match p, s with
  | [], _ => Some s
  | a :: p', b :: s' => if (a =? b)%N then strip_prefix p' s' else None
  | _ :: _, [] => None
  end.

Definition unescape (e : char) : option char :=
  (if e =? 98 then Some 8 else if e =? 116 then Some 9
   else if e =? 110 then Some 10 else if e =? 102 then Some 12
   else if e =? 114 then Some 13 else if e =? 34 then Some 34
   else if e =? 92 then Some 92 else if e =? 47 then Some 47
   else None)%N.

Definition hex4 (a b c d : char) : option char :=
  match hex_value a, hex_value b, hex_value c, hex_value d with
  | Some x3, Some x2, Some x1, Some x0 =>
      Some (x3 * 4096 + x2 * 256 + x1 * 16 + x0)%N
  | _, _, _, _ => None
  end.

(** The characters of a string up to its closing quote; the opening quote
    has been read. *)
Fixpoint read_string (s : text) : option (text * text) :=
  match s with
  | [] => None
  | c :: rest =>
      if (c =? quote)%N then Some ([], rest)
      else if (c =? backslash)%N then
        match rest with
        | [] => None
        | e :: rest1 =>
            if (e =? 117)%N then
              match rest1 with
              | a :: b :: c' :: d :: rest2 =>
                  match hex4 a b c' d, read_string rest2 with
                  | Some ch, Some (str, r) => Some (ch :: str, r)
                  | _, _ => None
                  end
              | _ => None
              end
            else
              match unescape e, read_string rest1 with
              | Some ch, Some (str, r) => Some (ch :: str, r)
              | _, _ => None
              end
        end
      else if (c <? 32)%N then None
      else
        match read_string rest with
        | Some (str, r) => Some (c :: str, r)
        | None => None
        end
  end.

Definition read_integer (s : text) : option (Z * text) :=
  match s with
  | [] => None
  | c :: rest =>
      if (c =? 45)%N then
        match uint_of_digits rest with
        | (Decimal.Nil, _) => None
        | (u, r) => Some (Z.of_int (Decimal.Neg u), r)
        end
      else
        match uint_of_digits s with
        | (Decimal.Nil, _) => None
        | (u, r) => Some (Z.of_int (Decimal.Pos u), r)
        end
  end.

Definition char_digit (c : char) : option digit :=
  (if c =? 48 then Some d0 else if c =? 49 then Some d1
   else if c =? 50 then Some d2 else if c =? 51 then Some d3
   else if c =? 52 then Some d4 else if c =? 53 then Some d5
   else if c =? 54 then Some d6 else if c =? 55 then Some d7
   else if c =? 56 then Some d8 else if c =? 57 then Some d9
   else None)%N.

(** The longest run of digits at the head of [s]. *)
Fixpoint read_digits (s : text) : list digit * text :=
  match s with
  | [] => ([], [])
  | c :: rest =>
      match char_digit c with
      | Some d => let (ds, r) := read_digits rest in (d :: ds, r)
      | None => ([], s)
      end
  end.

(** An exponent: [E] or [e], a sign or none, digits. *)
Definition read_exponent (s : text) : option (Exponent * text) :=
  match s with
  | [] => None
  | c :: rest =>
      if ((c =? 69) || (c =? 101))%N then
        let (negative, rest') :=
          match rest with
          | c' :: r =>
              if (c' =? 43)%N then (false, r)
              else if (c' =? 45)%N then (true, r)
              else (false, rest)
          | [] => (false, rest)
          end in
        match read_digits rest' with
        | (d :: ds, r) => Some (Exp negative {| leading := d; following := ds |}, r)
        | ([], _) => None
        end
      else None
  end.

(** A minus sign or none. *)
Definition read_sign (s : text) : bool * text :=
  match s with
  | c :: rest => if (c =? 45)%N then (true, rest) else (false, s)
  | [] => (false, s)
  end.

(** The digits, and the fraction or the exponent, after the sign. *)
Definition read_unsigned_float (negative : bool) (s1 : text)
  : option (FloatText * text) :=
  match read_digits s1 with
  | (d :: ds, s2) =>
      let whole := {| leading := d; following := ds |} in
      match s2 with
      | [] => None
      | c :: s3 =>
          if (c =? 46)%N then
            match read_digits s3 with
            | (f :: fs, s4) =>
                let fraction := {| leading := f; following := fs |} in
                match read_exponent s4 with
                | Some (e, s5) =>
                    Some ({| negative := negative; whole := whole;
                             ending := Fraction fraction (Some e) |}, s5)
                | None =>
                    Some ({| negative := negative; whole := whole;
                             ending := Fraction fraction None |}, s4)
                end
            | ([], _) => None
            end
          else
            match read_exponent s2 with
            | Some (e, s5) =>
                Some ({| negative := negative; whole := whole;
                         ending := NoFraction e |}, s5)
            | None => None
            end
      end
  | ([], _) => None
  end.

(** A number with a fraction or an exponent; [None] for other texts, those
    of integers included. *)
Definition read_float (s : text) : option (FloatText * text) :=
  let (negative, s1) := read_sign s in read_unsigned_float negative s1.

Fixpoint read_value (fuel : nat) (s : text) {struct fuel}
  : option (JToken * text) :=
  match fuel with
  | O => None
  | S fuel =>
      match s with
      | [] => None
      | c :: rest =>
          if (c =? quote)%N then
            match read_string rest with
            | Some (str, r) => Some (JString str, r)
            | None => None
            end
          else if (c =? 91)%N then
            match rest with
            | [] => None
            | c' :: r =>
                if (c' =? 93)%N then Some (JArray [], r)
                else
                  match read_elements fuel rest with
                  | Some (l, r') => Some (JArray l, r')
                  | None => None
                  end
            end
          else if (c =? 123)%N then
            match rest with
            | [] => None
            | c' :: r =>
                if (c' =? 125)%N then Some (JObject [], r)
                else
                  match read_properties fuel rest with
                  | Some (l, r') => Some (JObject l, r')
                  | None => None
                  end
            end
          else
            match strip_prefix (txt "null") s with
            | Some r => Some (JNull, r)
            | None =>
            match strip_prefix (txt "true") s with
            | Some r => Some (JBool true, r)
            | None =>
            match strip_prefix (txt "false") s with
            | Some r => Some (JBool false, r)
            | None =>
            match read_float s with
            | Some (t, r) => Some (JFloat (Finite t), r)
            | None =>
            match read_integer s with
            | Some (z, r) => Some (JInteger z, r)
            | None => None
            end end end end end
      end
  end
with read_elements (fuel : nat) (s : text) {struct fuel}
  : option (list JToken * text) :=
  match fuel with
  | O => None
  | S fuel =>
      match read_value fuel s with
      | Some (x, c :: r) =>
          if (c =? 93)%N then Some ([x], r)
          else if (c =? comma)%N then
            match read_elements fuel r with
            | Some (l, r') => Some (x :: l, r')
            | None => None
            end
          else None
      | _ => None
      end
  end
with read_properties (fuel : nat) (s : text) {struct fuel}
  : option (list (text * JToken) * text) :=
  match fuel with
  | O => None
  | S fuel =>
      match s with
      | q :: s1 =>
          if (q =? quote)%N then
            match read_string s1 with
            | Some (k, c :: s2) =>
                if (c =? colon)%N then
                  match read_value fuel s2 with
                  | Some (x, d :: r) =>
                      if (d =? 125)%N then Some ([(k, x)], r)
                      else if (d =? comma)%N then
                        match read_properties fuel r with
                        | Some (l, r') => Some ((k, x) :: l, r')
                        | None => None
                        end
                      else None
                  | _ => None
                  end
                else None
            | _ => None
            end
          else None
      | [] => None
      end
  end.

(** A whole document: one value and nothing after it. *)
Definition Parse (s : text) : option JToken :=
  match read_value (S (List.length s)) s with
  | Some (v, []) => Some v
  | _ => None
  end.

(** *** Notions for the lemmas on the writer and the reader *)

(** The elements of an array after the opening bracket, and the
    properties of an object after the opening brace, as [WriteToken]
    writes them. *)
Fixpoint write_elements (l : list JToken) : text :=
  match l with
  | [] => [93%N]
  | x :: rest =>
      WriteToken x ++
      match rest with
      | [] => [93%N]
      | _ :: _ => comma :: write_elements rest
      end
  end.

Fixpoint write_properties (l : list (text * JToken)) : text :=
  match l with
  | [] => [125%N]
  | (k, x) :: rest =>
      WriteString k ++ colon :: WriteToken x ++
      match rest with
      | [] => [125%N]
      | _ :: _ => comma :: write_properties rest
      end
  end.

(** The strings of a value, the names of properties included, have
    ASCII characters only. *)
Fixpoint ascii_token (v : JToken) : bool :=
  match v with
  | JString s => ASCII.is_ascii s
  | JArray items => forallb ascii_token items
  | JObject members =>
      forallb (fun kx => ASCII.is_ascii (fst kx) && ascii_token (snd kx)) members
  | _ => true
  end.

(** The numbers of a value are finite. *)
Fixpoint finite_token (v : JToken) : bool :=
  match v with
  | JFloat (Finite _) => true
  | JFloat _ => false
  | JArray items => forallb finite_token items
  | JObject members => forallb (fun kx => finite_token (snd kx)) members
  | _ => true
  end.

(** The characters a number can go on with. *)
Definition continues_number (c : char) : bool :=
  (is_digit c || (c =? 46) || (c =? 69) || (c =? 101))%N.

(** A text that does not go on with the number before it. *)
Definition ends_number (rest : text) : Prop :=
  match rest with
  | [] => True
  | c :: _ => continues_number c = false
  end.

(** A text that does not go on with a digit. *)
Definition no_digit (rest : text) : Prop :=
  match rest with
  | [] => True
  | c :: _ => char_digit c = None
  end.

(** What is to be shown of a value: the reader, with fuel for the length
    of its text, gives it back and stops after it. *)
Definition reads_back (v : JToken) : Prop :=
  forall fuel rest,
    List.length (WriteToken v) <= fuel -> ends_number rest ->
    read_value fuel (WriteToken v ++ rest) = Some (v, rest).
End Json.

(* ================================================================== *)
(** ** HTTP messages ([System.Net.Http]) *)

Record Uri := { AbsoluteUri : text; Host : text }.

Module Http.
(** A header collection: names compared without case, each with the
    values added to it, in order. *)
Definition HttpHeaders := list (text * list text).

Fixpoint TryGetValues (name : text) (hs : HttpHeaders) : option (list text) :=
  match hs with
  | [] => None
  | (k, vs) :: rest =>
      if EqualsIgnoreCase k name then Some vs else TryGetValues name rest
  end.

(** Appends [value] to the values of [name], with a new entry at the end
    when the collection has none for it. *)
Fixpoint add_value (name value : text) (hs : HttpHeaders) : HttpHeaders :=
  match hs with
  | [] => [(name, [value])]
  | (k, vs) :: rest =>
      if EqualsIgnoreCase k name then (k, vs ++ [value]) :: rest
      else (k, vs) :: add_value name value rest
  end.

(** [HttpHeaders.Add(name, value)], for a name and a value the collection
    takes. *)
Definition Add (name value : text) (hs : HttpHeaders) : HttpHeaders :=
  add_value name value hs.

(** [HttpHeaders.TryAddWithoutValidation(name, value)]: the collection
    decides by the name ([allowed]: a well-formed name that is not
    reserved for another kind of collection) whether it takes the
    header; it reports that and is unchanged when it does not. *)
Definition TryAddWithoutValidation (allowed : text -> bool)
    (name value : text) (hs : HttpHeaders) : HttpHeaders * bool :=
  if allowed name then (add_value name value hs, true) else (hs, false).

(** An [HttpContent] with its bytes in memory. *)
Record HttpContent := {
  Bytes : list byte;
  ContentHeaders : HttpHeaders
}.

Definition ContentTypeName : text := txt "Content-Type".

(** [new StringContent(content, Encoding.ASCII, mediaType)] *)
Definition StringContent (content : text) (mediaType : text) : HttpContent :=
  {| Bytes := ASCII.GetBytes content;
     ContentHeaders :=
       [(ContentTypeName, [mediaType ++ txt "; charset=" ++ ASCII.WebName])] |}.

(** [ReadAsStringAsync] of a content whose charset is us-ascii: the text
    of its bytes.  Reading buffers the content, after which the runtime
    can list a Content-Length among the content headers; that header is
    not modelled here.  The loop that fills the signer's request is
    stated for every request message, whatever headers it has, and the
    merge of the signed headers leaves Content-Length alone. *)
Definition ReadAsStringAsync (c : HttpContent) : text :=
  ASCII.GetString (Bytes c).

Record HttpRequestMessage := {
  Method : text;
  RequestUri : Uri;
  Headers : HttpHeaders;
  Content : HttpContent
}.

Definition with_Headers (m : HttpRequestMessage) (hs : HttpHeaders) :=
  {| Method := Method m; RequestUri := RequestUri m; Headers := hs;
     Content := Content m |}.

Record HttpResponseMessage := {
  StatusCode : Z;
  ReasonPhrase : text;
  ResponseContent : list byte
}.

Definition IsSuccessStatusCode (r : HttpResponseMessage) : bool :=
  ((200 <=? StatusCode r) && (StatusCode r <=? 299))%Z.

(** [EnsureSuccessStatusCode]: the exception has the status code, and in
    its message the status code and the reason phrase. *)
Definition EnsureSuccessStatusCode (r : HttpResponseMessage) : Outcome unit :=
  if IsSuccessStatusCode r then Returned tt
  else Thrown (HttpRequestException
                 (txt "Response status code does not indicate success: "
                  ++ Int_ToString (StatusCode r) ++ txt " ("
                  ++ ReasonPhrase r ++ txt ").")
                 (Some (StatusCode r))).

Definition Post : text := txt "POST".
Definition Application_Json : text := txt "application/json".
End Http.

(* ================================================================== *)
(** ** The AWS SDK ([Amazon.Runtime], [Amazon.Util]) *)

Module Aws.
Record ImmutableCredentials := {
  AccessKey : text;
  SecretKey : text;
  Token : text
}.

Record RegionEndpoint := { SystemName : text }.

(** The client configurations the code constructs. *)
Inductive ClientConfig := AmazonAppSyncConfig.

(** [IDictionary<string, string>] with a comparer that ignores case, in
    enumeration order. *)
Definition Dictionary := list (text * text).

(** [d[key] = value] *)
Fixpoint set_Item (key value : text) (d : Dictionary) : Dictionary :=
  match d with
  | [] => [(key, value)]
  | (k, v) :: rest =>
      if EqualsIgnoreCase k key then (k, value) :: rest
      else (k, v) :: set_Item key value rest
  end.

Record DefaultRequest := {
  ServiceName : text;
  Content : list byte;
  HttpMethod : text;
  Endpoint : Uri;
  AlternateEndpoint : option RegionEndpoint;
  Headers : Dictionary
}.

Definition with_Headers (r : DefaultRequest) (hs : Dictionary) :=
  {| ServiceName := ServiceName r; Content := Content r;
     HttpMethod := HttpMethod r; Endpoint := Endpoint r;
     AlternateEndpoint := AlternateEndpoint r; Headers := hs |}.

(** [Amazon.Util.HeaderKeys] *)
Module HeaderKeys.
Definition ContentTypeHeader : text := txt "Content-Type".
Definition ContentLengthHeader : text := txt "Content-Length".
Definition XAmzSecurityTokenHeader : text := txt "x-amz-security-token".
Definition HostHeader : text := txt "host".
End HeaderKeys.
End Aws.

(* ================================================================== *)
(** ** What the code runs against *)

(** The calls that leave the process or the dispatcher's own code, in the
    order they are made. *)
Inductive Event :=
| CredentialsRequested (answer : option Aws.ImmutableCredentials)
| SignatureComputed (request : Aws.DefaultRequest) (config : Aws.ClientConfig)
    (credentials : Aws.ImmutableCredentials)
| RequestSent (request : Http.HttpRequestMessage).

Definition History := list Event.

(** The collaborators of the code.  Those that depend on the moment of the
    call (the credential chain, the signer with its clock, the server) see
    the history so far. *)
Record Runtime := {
  (** [Environment.GetEnvironmentVariable] *)
  environment : text -> option text;
  (** [new Uri(string)]; [None] when the text is not an absolute URI *)
  uriParser : text -> option Uri;
  (** [RegionEndpoint.GetBySystemName] on a name that is not [null] *)
  regionBySystemName : text -> Aws.RegionEndpoint;
  (** [FallbackCredentialsFactory.GetCredentials().GetCredentialsAsync()];
      [None] when no provider of the chain has credentials *)
  credentialChain : History -> option Aws.ImmutableCredentials;
  (** [AWS4Signer.Sign]: the request as the signer leaves it *)
  signer : History -> Aws.DefaultRequest -> Aws.ClientConfig ->
           Aws.ImmutableCredentials -> Aws.DefaultRequest;
  (** the peer of [HttpClient.SendAsync]; [None] when the exchange fails
      before a response arrives *)
  server : History -> Http.HttpRequestMessage -> option Http.HttpResponseMessage;
  (** the header names [HttpRequestHeaders] takes *)
  requestHeaderAllowed : text -> bool
}.

(** Computations that extend the history and may throw. *)
Definition M (A : Type) := History -> Outcome A * History.

Definition ret {A} (a : A) : M A := fun h => (Returned a, h).

Definition throw {A} (e : Exception) : M A := fun h => (Thrown e, h).

Definition bind {A B} (m : M A) (k : A -> M B) : M B :=
  fun h =>
    match m h with
    | (Returned a, h') => k a h'
    | (Thrown e, h') => (Thrown e, h')
    end.

Definition lift {A} (o : Outcome A) : M A := fun h => (o, h).

Declare Scope dispatch_scope.
Delimit Scope dispatch_scope with dispatch.
Notation "x <- c ;; k" := (bind c (fun x => k))
  (at level 61, c at next level, right associativity) : dispatch_scope.
Notation "c ;;; k" := (bind c (fun _ => k))
  (at level 61, right associativity) : dispatch_scope.

(** The requests that went out, oldest first. *)
Definition network_calls (h : History) : list Http.HttpRequestMessage :=
  flat_map (fun e => match e with RequestSent m => [m] | _ => [] end) h.

(** The signer's invocations, oldest first. *)
Definition signatures (h : History)
  : list (Aws.DefaultRequest * Aws.ClientConfig * Aws.ImmutableCredentials) :=
  flat_map (fun e => match e with
                     | SignatureComputed r cfg c => [(r, cfg, c)]
                     | _ => []
                     end) h.

(* ================================================================== *)
(** ** AppSyncOperations *)

Record AppSyncOperations := {
  _graphQlEndpoint : Uri;
  _awsRegion : Aws.RegionEndpoint
}.

Section Dispatcher.
Variable rt : Runtime.

Local Open Scope dispatch_scope.

(** [new Uri(graphQlEndpoint)] *)
Definition new_Uri (uriString : option text) : Outcome Uri :=
  match uriString with
  | None => Thrown (ArgumentNullException (txt "uriString"))
  | Some s =>
      match uriParser rt s with
      | Some u => Returned u
      | None => Thrown UriFormatException
      end
  end.

(** [Amazon.RegionEndpoint.GetBySystemName(systemName)] *)
Definition GetBySystemName (systemName : option text)
  : Outcome Aws.RegionEndpoint :=
  match systemName with
  | None => Thrown (ArgumentNullException (txt "key"))
  | Some name => Returned (regionBySystemName rt name)
  end.

(** The constructor; [awsRegion] is [None] when the argument is left to
    its default [null]. *)
Definition AppSyncOperations_new (graphQlEndpoint awsRegion : option text)
  : Outcome AppSyncOperations :=
  bindO (new_Uri graphQlEndpoint) (fun endpoint =>
  let awsRegion :=
    if IsNullOrWhiteSpace awsRegion
    then environment rt (txt "AWS_REGION")
    else awsRegion in
  bindO (GetBySystemName awsRegion) (fun region =>
  Returned {| _graphQlEndpoint := endpoint; _awsRegion := region |})).

(** *** The calls to the collaborators *)

Definition GetCredentialsAsync : M Aws.ImmutableCredentials :=
  fun h =>
    let answer := credentialChain rt h in
    (match answer with
     | Some credentials => Returned credentials
     | None => Thrown (AmazonServiceException (txt "Unable to find credentials"))
     end,
     h ++ [CredentialsRequested answer]).

Definition Sign (request : Aws.DefaultRequest) (clientConfig : Aws.ClientConfig)
    (credentials : Aws.ImmutableCredentials) : M Aws.DefaultRequest :=
  fun h =>
    (Returned (signer rt h request clientConfig credentials),
     h ++ [SignatureComputed request clientConfig credentials]).

Definition SendAsync (request : Http.HttpRequestMessage)
  : M Http.HttpResponseMessage :=
  fun h =>
    (match server rt h request with
     | Some response => Returned response
     | None => Thrown (HttpRequestException (txt "An error occurred while sending the request.") None)
     end,
     h ++ [RequestSent request]).

(** *** The steps of [RunGraphql], named after its local variables *)

(** [new { query, operationName, variables }] *)
Definition payload (query operationName : text)
    (variables : list (text * JToken)) : JToken :=
  JObject [(txt "query", JString query);
           (txt "operationName", JString operationName);
           (txt "variables", JObject variables)].

(** line 43 *)
Definition jsonPayload (query operationName : text)
    (variables : list (text * JToken)) : text :=
  Json.WriteToken (payload query operationName variables).

(** lines 44 to 51: the request before it is signed *)
Definition httpRequestMessage (this : AppSyncOperations)
    (immutableCredentials : Aws.ImmutableCredentials)
    (requestContent : Http.HttpContent) : Http.HttpRequestMessage :=
  let m := {| Http.Method := Http.Post;
              Http.RequestUri := _graphQlEndpoint this;
              Http.Headers := [];
              Http.Content := requestContent |} in
  let m := Http.with_Headers m
             (Http.Add Aws.HeaderKeys.XAmzSecurityTokenHeader
                (Aws.Token immutableCredentials) (Http.Headers m)) in
  Http.with_Headers m
    (Http.Add Aws.HeaderKeys.HostHeader (Host (_graphQlEndpoint this))
       (Http.Headers m)).

(** line 54 *)
Definition rawBytes (requestContent : Http.HttpContent) : list byte :=
  ASCII.GetBytes (Http.ReadAsStringAsync requestContent).

(** lines 55 to 67: the request handed to the signer *)
Definition awsRequest (this : AppSyncOperations)
    (m : Http.HttpRequestMessage) (content : list byte) : Aws.DefaultRequest :=
  let r := {| Aws.ServiceName := txt "appsync";
              Aws.Content := content;
              Aws.HttpMethod := Http.Post;
              Aws.Endpoint := _graphQlEndpoint this;
              Aws.AlternateEndpoint := Some (_awsRegion this);
              Aws.Headers := [] |} in
  fold_left
    (fun r header =>
       Aws.with_Headers r
         (Aws.set_Item (fst header) (Join (txt ", ") (snd header))
            (Aws.Headers r)))
    (Http.Headers m ++ Http.ContentHeaders (Http.Content m)) r.

(** the condition of lines 77 to 82 *)
Definition copied (key : text) : bool :=
  negb (EqualsIgnoreCase key Aws.HeaderKeys.ContentTypeHeader) &&
  negb (EqualsIgnoreCase key Aws.HeaderKeys.ContentLengthHeader) &&
  negb (EqualsIgnoreCase key Aws.HeaderKeys.XAmzSecurityTokenHeader) &&
  negb (EqualsIgnoreCase key Aws.HeaderKeys.HostHeader).

(** lines 75 to 86 *)
Definition addSignerHeaders (signed : Aws.Dictionary)
    (m : Http.HttpRequestMessage) : Http.HttpRequestMessage :=
  fold_left
    (fun m header =>
       if copied (fst header)
       then Http.with_Headers m
              (fst (Http.TryAddWithoutValidation (requestHeaderAllowed rt)
                      (fst header) (snd header) (Http.Headers m)))
       else m)
    signed m.

Definition RunGraphql (this : AppSyncOperations) (query operationName : text)
    (variables : list (text * JToken)) : M unit :=
  immutableCredentials <- GetCredentialsAsync ;;
  let requestContent :=
    Http.StringContent (jsonPayload query operationName variables)
      Http.Application_Json in
  let message := httpRequestMessage this immutableCredentials requestContent in
  let request := awsRequest this message (rawBytes requestContent) in
  signed <- Sign request Aws.AmazonAppSyncConfig immutableCredentials ;;
  let message := addSignerHeaders (Aws.Headers signed) message in
  httpResponseMessage <- SendAsync message ;;
  lift (Http.EnsureSuccessStatusCode httpResponseMessage).

(** *** The values of these variables in a call that starts after the
        history [h] and resolves [credentials] *)

Section Call.
Variable this : AppSyncOperations.
Variables query operationName : text.
Variable variables : list (text * JToken).
Variable credentials : Aws.ImmutableCredentials.
Variable h : History.

(** [requestContent], line 44 *)
Definition contentOf : Http.HttpContent :=
  Http.StringContent (jsonPayload query operationName variables)
    Http.Application_Json.

(** [httpRequestMessage] before line 64: the draft request *)
Definition draftOf : Http.HttpRequestMessage :=
  httpRequestMessage this credentials contentOf.

(** [awsRequest] when it is handed to the signer, line 70 *)
Definition requestOf : Aws.DefaultRequest :=
  awsRequest this draftOf (rawBytes contentOf).

(** [awsRequest] as the signer leaves it *)
Definition signedOf : Aws.DefaultRequest :=
  signer rt (h ++ [CredentialsRequested (Some credentials)])
    requestOf Aws.AmazonAppSyncConfig credentials.

(** [httpRequestMessage] when it is sent, line 88 *)
Definition messageOf : Http.HttpRequestMessage :=
  addSignerHeaders (Aws.Headers signedOf) draftOf.

(** the history when the request is sent *)
Definition historyOf : History :=
  h ++ [CredentialsRequested (Some credentials);
        SignatureComputed requestOf Aws.AmazonAppSyncConfig credentials].
End Call.
End Dispatcher.

(* ================================================================== *)
(** ** ImageResizer *)

Module Skia.
Record SKImageInfo := { Width : Z; Height : Z }.

Definition IsEmpty (info : SKImageInfo) : bool :=
  ((Width info <=? 0) || (Height info <=? 0))%Z.

Record SKBitmap := { Info : SKImageInfo; Pixels : list byte }.

Inductive SKFilterQuality := None_ | Low | Medium | High.

(** [SKImage.FromBitmap] keeps the bitmap's dimensions and pixels. *)
Record SKImage := { ImageInfo : SKImageInfo; ImagePixels : list byte }.

Definition FromBitmap (b : SKBitmap) : SKImage :=
  {| ImageInfo := Info b; ImagePixels := Pixels b |}.

(** The codec and the scaler of the library. *)
Record Library := {
  (** [SKBitmap.Decode]; [None] is [null], for data that is no image *)
  Decode : list byte -> option SKBitmap;
  (** [SKBitmap.ScalePixels] into a destination of the given
      dimensions; [None] when it reports failure *)
  ScalePixels : SKBitmap -> SKImageInfo -> SKFilterQuality -> option (list byte);
  (** [SKImage.Encode]; [None] is [null] *)
  Encode : SKImage -> option (list byte)
}.

(** [SKBitmap.Resize(info, quality)]: [null] for empty dimensions, else a
    new bitmap of the dimensions of [info] that the source is scaled
    into, or [null] when the scaling fails. *)
Definition Resize (lib : Library) (source : SKBitmap) (info : SKImageInfo)
    (quality : SKFilterQuality) : option SKBitmap :=
  if IsEmpty info then None
  else match ScalePixels lib source info quality with
       | Some pixels => Some {| Info := info; Pixels := pixels |}
       | None => None
       end.
End Skia.

(** A [System.IO.Stream] that is read: its bytes and the read position. *)
Record Stream := { Buffer : list byte; Position : nat }.

Definition MemoryStream (data : list byte) : Stream :=
  {| Buffer := data; Position := 0 |}.

(** [stream.CopyToAsync(tmp); tmp.ToArray()] for an empty [tmp]: the bytes
    from the position to the end, and the stream left at its end. *)
Definition CopyToArray (stream : Stream) : list byte * Stream :=
  (skipn (Position stream) (Buffer stream),
   {| Buffer := Buffer stream;
      Position := Nat.max (Position stream) (List.length (Buffer stream)) |}).

(** [System.Drawing.Size] *)
Record Size := { Size_Width : Z; Size_Height : Z }.

Section ImageResizer.
Variable skia : Skia.Library.

(** The resized bitmap of [Resize], before it is encoded. *)
Definition scaledBitmap (sourceBitmap : Skia.SKBitmap) (maxWidth maxHeight : Z)
  : option Skia.SKBitmap :=
  let height := Z.min maxHeight (Skia.Height (Skia.Info sourceBitmap)) in
  let width := Z.min maxWidth (Skia.Width (Skia.Info sourceBitmap)) in
  Skia.Resize skia sourceBitmap
    {| Skia.Width := width; Skia.Height := height |} Skia.Medium.

Definition Resize (fileContents : list byte) (maxWidth maxHeight : Z)
  : Outcome (list byte) :=
  match Skia.Decode skia fileContents with
  | None => Thrown NullReferenceException
  | Some sourceBitmap =>
      match scaledBitmap sourceBitmap maxWidth maxHeight with
      | None => Thrown (ArgumentNullException (txt "bitmap"))
      | Some scaled =>
          let scaledImage := Skia.FromBitmap scaled in
          match Skia.Encode skia scaledImage with
          | None => Thrown NullReferenceException
          | Some data => Returned data
          end
      end
  end.

Definition ResizeAsync (stream : Stream) (maxSize : Size)
  : Outcome Stream * Stream :=
  let (tmp, stream') := CopyToArray stream in
  (bindO (Resize tmp (Size_Width maxSize) (Size_Height maxSize))
     (fun data => Returned (MemoryStream data)),
   stream').
End ImageResizer.

(* ================================================================== *)
(** ** Notions for the statements *)

(** A header named [k] with the value [v]. *)
Definition has_header (k v : text) (hs : Http.HttpHeaders) : Prop :=
  exists vs, Http.TryGetValues k hs = Some vs /\ In v vs.

(** The four names the merge leaves alone, in any case. *)
Definition protected (name : text) : Prop :=
  EqualsIgnoreCase name Aws.HeaderKeys.ContentTypeHeader = true \/
  EqualsIgnoreCase name Aws.HeaderKeys.ContentLengthHeader = true \/
  EqualsIgnoreCase name Aws.HeaderKeys.XAmzSecurityTokenHeader = true \/
  EqualsIgnoreCase name Aws.HeaderKeys.HostHeader = true.

(* ================================================================== *)
(** ** Sample collaborators, for the examples *)

Module Sample.
Definition endpointText : text := txt "https://example.com/graphql".

Definition endpoint : Uri :=
  {| AbsoluteUri := endpointText; Host := txt "example.com" |}.

Definition credentials : Aws.ImmutableCredentials :=
  {| Aws.AccessKey := txt "A"; Aws.SecretKey := txt "B"; Aws.Token := txt "T" |}.

Definition rotated : Aws.ImmutableCredentials :=
  {| Aws.AccessKey := txt "A2"; Aws.SecretKey := txt "B2"; Aws.Token := txt "T2" |}.

(** A signer that adds the headers of a signature and sets the four
    headers of the request to values of its own. *)
Definition overwritingSigner (_ : History) (r : Aws.DefaultRequest) (_ : Aws.ClientConfig)
    (c : Aws.ImmutableCredentials) : Aws.DefaultRequest :=
  Aws.with_Headers r
    (Aws.set_Item (txt "Authorization")
       (txt "AWS4-HMAC-SHA256 Credential=" ++ Aws.AccessKey c)
    (Aws.set_Item (txt "X-Amz-Date") (txt "20240101T000000Z")
    (Aws.set_Item (txt "Host") (txt "signer.invalid")
    (Aws.set_Item (txt "X-Amz-Security-Token") (txt "recomputed")
    (Aws.set_Item (txt "content-type") (txt "text/plain")
    (Aws.set_Item (txt "Content-Length") (txt "0")
       (Aws.Headers r))))))).

Definition response (status : Z) (reason : text) (body : text)
  : Http.HttpResponseMessage :=
  {| Http.StatusCode := status; Http.ReasonPhrase := reason;
     Http.ResponseContent := ASCII.GetBytes body |}.

(** A name made of letters, digits and hyphens, that is not the name of
    a content header. *)
Definition allowed (name : text) : bool :=
  negb (text_eqb name []) &&
  forallb (fun c => is_digit c || (c =? 45)%N
                    || ((65 <=? ToUpper c) && (ToUpper c <=? 90))%N) name &&
  negb (EqualsIgnoreCase name (txt "Content-Type")) &&
  negb (EqualsIgnoreCase name (txt "Content-Length")).

Definition runtime (chain : History -> option Aws.ImmutableCredentials)
    (answer : option Http.HttpResponseMessage) : Runtime :=
  {| environment :=
       fun name => if text_eqb name (txt "AWS_REGION")
                   then Some (txt "eu-west-1") else None;
     uriParser :=
       fun s => if text_eqb s endpointText then Some endpoint else None;
     regionBySystemName := fun name => {| Aws.SystemName := name |};
     credentialChain := chain;
     signer := overwritingSigner;
     server := fun _ _ => answer;
     requestHeaderAllowed := allowed |}.

(** The same, in a process that has no variable [AWS_REGION]. *)
Definition runtime_without_region : Runtime :=
  {| environment := fun _ => None;
     uriParser :=
       fun s => if text_eqb s endpointText then Some endpoint else None;
     regionBySystemName := fun name => {| Aws.SystemName := name |};
     credentialChain := fun _ => None;
     signer := overwritingSigner;
     server := fun _ _ => None;
     requestHeaderAllowed := allowed |}.

Definition always (c : Aws.ImmutableCredentials) : History -> option Aws.ImmutableCredentials :=
  fun _ => Some c.

Definition never : History -> option Aws.ImmutableCredentials :=
  fun _ => None.

(** A chain whose credentials are rotated after the first request. *)
Definition rotating (h : History) : option Aws.ImmutableCredentials :=
  match h with
  | [] => Some credentials
  | _ :: _ => Some rotated
  end.

(** A chain that loses its credentials after the first request. *)
Definition expiring (h : History) : option Aws.ImmutableCredentials :=
  match h with
  | [] => Some credentials
  | _ :: _ => None
  end.

Definition dispatcher : AppSyncOperations :=
  {| _graphQlEndpoint := endpoint;
     _awsRegion := {| Aws.SystemName := txt "us-east-1" |} |}.

Definition ok : Http.HttpResponseMessage := response 200 (txt "OK") (txt "{}").

Definition forbidden : Http.HttpResponseMessage :=
  response 403 (txt "Forbidden") (txt "Forbidden").

Definition denied : Http.HttpResponseMessage :=
  response 403 (txt "Forbidden") (txt "Denied").

(** Credentials at hand and a server that answers 200. *)
Definition healthy : Runtime := runtime (always credentials) (Some ok).

(** Credentials at hand and a server that answers 403. *)
Definition refusing : Runtime := runtime (always credentials) (Some forbidden).

(** No credentials. *)
Definition anonymous : Runtime := runtime never (Some ok).

(** The query [{ping}] of the specification. *)
Definition ping : text := txt "{ping}".
Definition Ping : text := txt "Ping".

(** The numbers 0.5 and -1.5E-05 as the serializer writes them. *)
Definition half : JToken :=
  JFloat (Finite {| negative := false;
                    whole := {| leading := d0; following := [] |};
                    ending := Fraction {| leading := d5; following := [] |} None |}).
Definition tiny : JToken :=
  JFloat (Finite {| negative := true;
                    whole := {| leading := d1; following := [] |};
                    ending := Fraction {| leading := d5; following := [] |}
                                (Some (Exp true {| leading := d0;
                                                   following := [d5] |})) |}).

(** Variables with an integer, a sequence and the two numbers. *)
Definition variables : list (text * JToken) :=
  [(txt "id", JInteger 7); (txt "tags", JArray [JString (txt "a"); JNull]);
   (txt "rate", half); (txt "delta", tiny)].

(** A query with the letter e-acute, U+00E9, and the same with a
    question mark in its place. *)
Definition accented : text := txt "{caf" ++ [233%N] ++ txt "}".
Definition questioned : text := txt "{caf?}".

(** An image library on a toy format: two bytes for the width and the
    height, then the pixels. *)
Definition decode (data : list byte) : option Skia.SKBitmap :=
  match data with
  | w :: h :: pixels =>
      Some {| Skia.Info := {| Skia.Width := Z.of_N (Byte.to_N w);
                              Skia.Height := Z.of_N (Byte.to_N h) |};
              Skia.Pixels := pixels |}
  | _ => None
  end.

Definition dimension (z : Z) : byte :=
  match Byte.of_N (Z.to_N z) with
  | Some b => b
  | None => xff
  end.

Definition skia : Skia.Library :=
  {| Skia.Decode := decode;
     Skia.ScalePixels :=
       fun _ info _ =>
         Some (repeat x00 (Z.to_nat (Skia.Width info * Skia.Height info)));
     Skia.Encode :=
       fun image =>
         Some (dimension (Skia.Width (Skia.ImageInfo image))
               :: dimension (Skia.Height (Skia.ImageInfo image))
               :: Skia.ImagePixels image) |}.

(** An image of 4 by 2 pixels. *)
Definition picture : list byte :=
  [x04; x02; x01; x02; x03; x04; x05; x06; x07; x08].
End Sample.

(* ================================================================== *)
(** ** ApiOperations *)

(** What [HttpClient] makes of the text of a request URI, which
    [new HttpRequestMessage(HttpMethod.Post, apiUrl)] reads as a relative
    or an absolute one. *)
Inductive RequestTarget :=
  (** an absolute URI that the client sends to *)
| Sendable (uri : Uri)
  (** a relative URI, or one of a scheme the client has no transport for:
      [SendAsync] throws before anything is sent *)
| Unsendable
  (** no URI: [UriFormatException] in the constructor of the message *)
| Malformed.

Inductive PostOutcome :=
| Posted
| PostThrown (e : Exception)
  (** the exception of [SendAsync] for an [Unsendable] target *)
| PostRefused.

Section ApiOperations.
Variable rt : Runtime.
Variable target : text -> RequestTarget.

(** lines 31 to 39: the request that is sent *)
Definition apiRequest (uri : Uri) (apiKey : text) (content : JToken)
  : Http.HttpRequestMessage :=
  let jsonPayload := Json.WriteToken content in
  let requestContent := Http.StringContent jsonPayload Http.Application_Json in
  let m := {| Http.Method := Http.Post;
              Http.RequestUri := uri;
              Http.Headers := [];
              Http.Content := requestContent |} in
  let m := Http.with_Headers m
             (fst (Http.TryAddWithoutValidation (requestHeaderAllowed rt)
                     (txt "x-api-key") apiKey (Http.Headers m))) in
  Http.with_Headers m
    (fst (Http.TryAddWithoutValidation (requestHeaderAllowed rt)
            Aws.HeaderKeys.ContentTypeHeader Http.Application_Json
            (Http.Headers m))).

(** [content] is [None] for [null]. *)
Definition PosAsJsonAsync (apiUrl apiKey : option text) (content : option JToken)
    (h : History) : PostOutcome * History :=
  if IsNullOrWhiteSpace apiUrl
  then (PostThrown (ArgumentNullException (txt "apiUrl")), h)
  else if IsNullOrWhiteSpace apiKey
  then (PostThrown (ArgumentNullException (txt "apiKey")), h)
  else
    match content with
    | None => (PostThrown (ArgumentNullException (txt "content")), h)
    | Some content =>
        match apiUrl, apiKey with
        | Some apiUrl, Some apiKey =>
            match target apiUrl with
            | Malformed => (PostThrown UriFormatException, h)
            | Unsendable => (PostRefused, h)
            | Sendable uri =>
                match SendAsync rt (apiRequest uri apiKey content) h with
                | (Returned httpResponseMessage, h') =>
                    (match Http.EnsureSuccessStatusCode httpResponseMessage with
                     | Returned _ => Posted
                     | Thrown e => PostThrown e
                     end, h')
                | (Thrown e, h') => (PostThrown e, h')
                end
            end
        | _, _ =>
            (* not reached: a text that is [null] is blank *)
            (PostThrown (ArgumentNullException (txt "apiUrl")), h)
        end
    end.
End ApiOperations.

(* ================================================================== *)
(** ** The resource suppressions of InfraStack *)

Module Cdk.
(** [String.prototype.startsWith] and [String.prototype.endsWith] *)
Fixpoint startsWith (s prefix : text) : bool :=
  match prefix, s with
  | [], _ => true
  | a :: prefix', b :: s' => (a =? b)%N && startsWith s' prefix'
  | _ :: _, [] => false
  end.

Definition endsWith (s suffix : text) : bool :=
  startsWith (rev s) (rev suffix).

Definition managedByCdk : text := txt "Resource created and managed by CDK.".

Definition laxByDesign : text :=
  txt " This type of resource is a singleton fn that interacts with many resources so IAM policies are lax by design to allow this use case.".

(** The body of the first [forEach] of the constructor of [InfraStack]:
    the [id] and the [reason] of the suppression added for a path. *)
Definition suppression (resourcePath : text) : text * text :=
  let id := txt "AwsSolutions-L1" in
  let reason := managedByCdk in
  if endsWith resourcePath (txt "ServiceRole/Resource")
  then (txt "AwsSolutions-IAM4", reason)
  else if endsWith resourcePath (txt "DefaultPolicy/Resource")
  then (txt "AwsSolutions-IAM5", reason ++ laxByDesign)
  else (id, reason).
End Cdk.

(* ================================================================== *)
(** ** Further notions for the statements *)

(** [d.TryGetValue(key)] on the headers of the signer's request. *)
Fixpoint Dictionary_TryGetValue (key : text) (d : Aws.Dictionary) : option text :=
  match d with
  | [] => None
  | (k, v) :: rest =>
      if EqualsIgnoreCase k key then Some v else Dictionary_TryGetValue key rest
  end.

(** The characters that are neither ASCII nor written as an escape: the
    ASCII encoding of the body has a question mark for them. *)
Definition sent_as_question (c : char) : bool :=
  (128 <=? c)%N && negb (Json.needs_unicode_escape c).

(** A text as the body has it. *)
Definition on_the_wire (s : text) : text :=
  List.map (fun c => if sent_as_question c then ASCII.question else c) s.

(** More sample collaborators. *)
Module Fixtures.
Definition reportUrl : text := txt "https://api.example.com/report".

Definition reportUri : Uri :=
  {| AbsoluteUri := reportUrl; Host := txt "api.example.com" |}.

(** Absolute for the report URL; no URI for a scheme without a host, which
    [new Uri] refuses; the other texts used below are relative URIs. *)
Definition target (s : text) : RequestTarget :=
  if text_eqb s reportUrl then Sendable reportUri
  else if text_eqb s (txt "http://") then Malformed
  else Unsendable.

(** Credentials at hand and a server that does not answer. *)
Definition unreachable : Runtime :=
  Sample.runtime (Sample.always Sample.credentials) None.

Definition report : JToken :=
  JObject [(txt "fileId", JString (txt "f-1")); (txt "labels", JArray []);
           (txt "confidence", Sample.half)].

(** An image library that decodes nothing. *)
Definition blind : Skia.Library :=
  {| Skia.Decode := fun _ => None;
     Skia.ScalePixels := fun _ _ _ => None;
     Skia.Encode := fun _ => None |}.

Definition bitmap4x2 : Skia.SKBitmap :=
  {| Skia.Info := {| Skia.Width := 4; Skia.Height := 2 |};
     Skia.Pixels := [x01; x02; x03; x04; x05; x06; x07; x08] |}.
End Fixtures.

(* ================================================================== *)
(** * Lemmas *)

(** ** Strings and the ASCII encoding *)

Lemma text_eqb_eq (a b : text) : text_eqb a b = true <-> a = b.
Proof.
  unfold text_eqb. destruct (list_eq_dec N.eq_dec a b); split; congruence.
Qed.

Lemma EqualsIgnoreCase_spec (a b : text) :
  EqualsIgnoreCase a b = true <-> List.map ToUpper a = List.map ToUpper b.
Proof. apply text_eqb_eq. Qed.

Lemma EqualsIgnoreCase_refl (a : text) : EqualsIgnoreCase a a = true.
Proof. now apply EqualsIgnoreCase_spec. Qed.

Lemma EqualsIgnoreCase_sym (a b : text) :
  EqualsIgnoreCase a b = EqualsIgnoreCase b a.
Proof.
  destruct (EqualsIgnoreCase a b) eqn:E, (EqualsIgnoreCase b a) eqn:F; trivial.
  - apply EqualsIgnoreCase_spec in E. symmetry in E.
    apply EqualsIgnoreCase_spec in E. congruence.
  - apply EqualsIgnoreCase_spec in F. symmetry in F.
    apply EqualsIgnoreCase_spec in F. congruence.
Qed.

Lemma EqualsIgnoreCase_trans (a b c : text) :
  EqualsIgnoreCase a b = true -> EqualsIgnoreCase b c = true ->
  EqualsIgnoreCase a c = true.
Proof.
  rewrite !EqualsIgnoreCase_spec. congruence.
Qed.

(** Names that are equal without case are told apart from the same names. *)
Lemma EqualsIgnoreCase_congr (a b c : text) :
  EqualsIgnoreCase a b = true -> EqualsIgnoreCase a c = EqualsIgnoreCase b c.
Proof.
  intros E.
  destruct (EqualsIgnoreCase a c) eqn:A, (EqualsIgnoreCase b c) eqn:B; trivial.
  - rewrite EqualsIgnoreCase_sym in E.
    rewrite (EqualsIgnoreCase_trans _ _ _ E A) in B. discriminate.
  - rewrite (EqualsIgnoreCase_trans _ _ _ E B) in A. discriminate.
Qed.

Module ASCIIFacts.
Import ASCII.

Lemma narrow_lt (c : N) : (narrow c < 128)%N.
Proof.
  unfold narrow, question. destruct (N.ltb_spec c 128); lia.
Qed.

Lemma narrow_idem (c : N) : narrow (narrow c) = narrow c.
Proof.
  unfold narrow at 1. pose proof (narrow_lt c) as H.
  apply N.ltb_lt in H. now rewrite H.
Qed.

Lemma to_N_encode (c : char) : Byte.to_N (encode c) = narrow c.
Proof.
  unfold encode. destruct (Byte.of_N (narrow c)) eqn:E.
  - now apply Byte.to_of_N.
  - apply Byte.of_N_None_iff in E. pose proof (narrow_lt c). lia.
Qed.

Lemma decode_encode (c : char) : decode (encode c) = narrow c.
Proof. unfold decode. now rewrite to_N_encode, narrow_idem. Qed.

Lemma encode_narrow (c : char) : encode (narrow c) = encode c.
Proof. unfold encode. now rewrite narrow_idem. Qed.

(** Decoding what was encoded, and encoding again, gives the same bytes. *)
Lemma GetBytes_GetString_GetBytes (s : text) :
  GetBytes (GetString (GetBytes s)) = GetBytes s.
Proof.
  unfold GetBytes, GetString. rewrite !map_map.
  apply map_ext. intros c. now rewrite decode_encode, encode_narrow.
Qed.

(** On a text of ASCII characters the encoding loses nothing. *)
Lemma GetString_GetBytes (s : text) :
  is_ascii s = true -> GetString (GetBytes s) = s.
Proof.
  unfold GetBytes, GetString, is_ascii. rewrite map_map.
  induction s as [|c s IH]; simpl; trivial.
  intros H. apply andb_prop in H as [Hc Hs].
  rewrite decode_encode, (IH Hs). unfold narrow. now rewrite Hc.
Qed.

Lemma is_ascii_app (a b : text) :
  is_ascii (a ++ b) = is_ascii a && is_ascii b.
Proof. apply forallb_app. Qed.
End ASCIIFacts.

(** ** Header collections *)

Module HeaderFacts.
Import Http.

(** The values of [name] after a value was added under [k]. *)
Lemma TryGetValues_add_value (k v name : text) (hs : HttpHeaders) :
  TryGetValues name (add_value k v hs) =
  if EqualsIgnoreCase k name
  then Some (match TryGetValues name hs with
             | Some vs => vs ++ [v]
             | None => [v]
             end)
  else TryGetValues name hs.
Proof.
  induction hs as [|[k' vs] rest IH]; simpl.
  - destruct (EqualsIgnoreCase k name); reflexivity.
  - destruct (EqualsIgnoreCase k' k) eqn:E; simpl.
    + rewrite (EqualsIgnoreCase_congr _ _ name E).
      destruct (EqualsIgnoreCase k name); reflexivity.
    + rewrite IH.
      destruct (EqualsIgnoreCase k' name) eqn:F; trivial.
      rewrite (EqualsIgnoreCase_congr _ _ k F), EqualsIgnoreCase_sym in E.
      now rewrite E.
Qed.

Lemma TryGetValues_add_value_other (k v name : text) (hs : HttpHeaders) :
  EqualsIgnoreCase k name = false ->
  TryGetValues name (add_value k v hs) = TryGetValues name hs.
Proof. intros E. now rewrite TryGetValues_add_value, E. Qed.

(** A value that a name has stays among its values when a header is added. *)
Lemma add_value_keeps (k v name x : text) (hs : HttpHeaders) (vs : list text) :
  TryGetValues name hs = Some vs -> In x vs ->
  exists vs', TryGetValues name (add_value k v hs) = Some vs' /\ In x vs'.
Proof.
  intros H Hin. rewrite TryGetValues_add_value, H.
  destruct (EqualsIgnoreCase k name); eauto using in_or_app.
Qed.

Lemma add_value_has (k v : text) (hs : HttpHeaders) :
  exists vs, TryGetValues k (add_value k v hs) = Some vs /\ In v vs.
Proof.
  rewrite TryGetValues_add_value, EqualsIgnoreCase_refl.
  eexists; split; [reflexivity|].
  destruct (TryGetValues k hs); [apply in_or_app; right|]; now left.
Qed.
End HeaderFacts.

(** ** Histories *)

Lemma network_calls_app (h1 h2 : History) :
  network_calls (h1 ++ h2) = network_calls h1 ++ network_calls h2.
Proof. apply flat_map_app. Qed.

Lemma signatures_app (h1 h2 : History) :
  signatures (h1 ++ h2) = signatures h1 ++ signatures h2.
Proof. apply flat_map_app. Qed.

(** ** The steps of the dispatcher *)

Lemma copied_false_iff (name : text) : copied name = false <-> protected name.
Proof.
  unfold copied, protected.
  destruct (EqualsIgnoreCase name Aws.HeaderKeys.ContentTypeHeader),
           (EqualsIgnoreCase name Aws.HeaderKeys.ContentLengthHeader),
           (EqualsIgnoreCase name Aws.HeaderKeys.XAmzSecurityTokenHeader),
           (EqualsIgnoreCase name Aws.HeaderKeys.HostHeader);
    simpl; intuition congruence.
Qed.

Lemma copied_congr (a b : text) :
  EqualsIgnoreCase a b = true -> copied a = copied b.
Proof.
  intros E. unfold copied. now rewrite !(EqualsIgnoreCase_congr _ _ _ E).
Qed.

Lemma copied_apart (k name : text) :
  copied k = true -> copied name = false -> EqualsIgnoreCase k name = false.
Proof.
  intros Hk Hn. destruct (EqualsIgnoreCase k name) eqn:E; trivial.
  apply copied_congr in E. congruence.
Qed.

Section DispatcherFacts.
Variable rt : Runtime.

Lemma awsRequest_fields_aux (l : list (text * list text)) (r : Aws.DefaultRequest) :
  let r' :=
    fold_left
      (fun r header =>
         Aws.with_Headers r
           (Aws.set_Item (fst header) (Join (txt ", ") (snd header))
              (Aws.Headers r))) l r in
  Aws.ServiceName r' = Aws.ServiceName r /\
  Aws.Content r' = Aws.Content r /\
  Aws.HttpMethod r' = Aws.HttpMethod r /\
  Aws.Endpoint r' = Aws.Endpoint r /\
  Aws.AlternateEndpoint r' = Aws.AlternateEndpoint r.
Proof.
  revert r. induction l as [|x l IH]; intros r; simpl.
  - repeat split.
  - apply (IH (Aws.with_Headers r _)).
Qed.

(** Copying the headers into the signer's request leaves its other
    properties as they were constructed. *)
Lemma awsRequest_fields (this : AppSyncOperations)
    (m : Http.HttpRequestMessage) (content : list byte) :
  Aws.ServiceName (awsRequest this m content) = txt "appsync" /\
  Aws.Content (awsRequest this m content) = content /\
  Aws.HttpMethod (awsRequest this m content) = Http.Post /\
  Aws.Endpoint (awsRequest this m content) = _graphQlEndpoint this /\
  Aws.AlternateEndpoint (awsRequest this m content) = Some (_awsRegion this).
Proof. unfold awsRequest. apply awsRequest_fields_aux. Qed.

Lemma addSignerHeaders_cons (header : text * text) (signed : Aws.Dictionary)
    (m : Http.HttpRequestMessage) :
  addSignerHeaders rt (header :: signed) m =
  addSignerHeaders rt signed
    (if copied (fst header)
     then Http.with_Headers m
            (fst (Http.TryAddWithoutValidation (requestHeaderAllowed rt)
                    (fst header) (snd header) (Http.Headers m)))
     else m).
Proof. reflexivity. Qed.

(** The merge changes nothing but the request headers. *)
Lemma addSignerHeaders_frame (signed : Aws.Dictionary) (m : Http.HttpRequestMessage) :
  Http.Method (addSignerHeaders rt signed m) = Http.Method m /\
  Http.RequestUri (addSignerHeaders rt signed m) = Http.RequestUri m /\
  Http.Content (addSignerHeaders rt signed m) = Http.Content m.
Proof.
  revert m. induction signed as [|x l IH]; intros m.
  - repeat split.
  - rewrite addSignerHeaders_cons.
    destruct (copied (fst x)); [|apply IH].
    destruct (IH (Http.with_Headers m
                    (fst (Http.TryAddWithoutValidation (requestHeaderAllowed rt)
                            (fst x) (snd x) (Http.Headers m))))) as (A & B & C).
    now rewrite A, B, C.
Qed.

(** The merge leaves the values of a protected name as they were. *)
Lemma addSignerHeaders_protected (signed : Aws.Dictionary)
    (m : Http.HttpRequestMessage) (name : text) :
  copied name = false ->
  Http.TryGetValues name (Http.Headers (addSignerHeaders rt signed m)) =
  Http.TryGetValues name (Http.Headers m).
Proof.
  intros Hn. revert m. induction signed as [|[k v] l IH]; intros m.
  - reflexivity.
  - rewrite addSignerHeaders_cons. simpl fst; simpl snd.
    destruct (copied k) eqn:Hk; [|apply IH].
    rewrite IH. unfold Http.TryAddWithoutValidation.
    destruct (requestHeaderAllowed rt k); simpl; trivial.
    apply HeaderFacts.TryGetValues_add_value_other.
    now apply copied_apart.
Qed.

Lemma addSignerHeaders_keeps (signed : Aws.Dictionary)
    (m : Http.HttpRequestMessage) (k v : text) :
  has_header k v (Http.Headers m) ->
  has_header k v (Http.Headers (addSignerHeaders rt signed m)).
Proof.
  revert m. induction signed as [|[k' v'] l IH]; intros m H.
  - exact H.
  - rewrite addSignerHeaders_cons. simpl fst; simpl snd.
    destruct (copied k'); [|now apply IH].
    apply IH. unfold Http.TryAddWithoutValidation.
    destruct (requestHeaderAllowed rt k'); simpl; trivial.
    destruct H as (vs & Hvs & Hin).
    eapply HeaderFacts.add_value_keeps; eauto.
Qed.

(** The merge copies each header of the signer's request that is not
    protected and that the collection takes. *)
Lemma addSignerHeaders_copies (signed : Aws.Dictionary)
    (m : Http.HttpRequestMessage) (k v : text) :
  In (k, v) signed -> copied k = true -> requestHeaderAllowed rt k = true ->
  has_header k v (Http.Headers (addSignerHeaders rt signed m)).
Proof.
  intros Hin Hk Ha. revert m.
  induction signed as [|x l IH]; intros m; [contradiction|].
  rewrite addSignerHeaders_cons. destruct Hin as [->|Hin].
  - simpl fst; simpl snd. rewrite Hk.
    apply addSignerHeaders_keeps.
    unfold Http.TryAddWithoutValidation. rewrite Ha. simpl.
    apply HeaderFacts.add_value_has.
  - now apply IH.
Qed.

(** A header that the merge does not find in the signer's request, or
    that the collection refuses, is not added. *)
Lemma addSignerHeaders_only (signed : Aws.Dictionary)
    (m : Http.HttpRequestMessage) (name v : text) :
  has_header name v (Http.Headers (addSignerHeaders rt signed m)) ->
  has_header name v (Http.Headers m) \/
  exists k, In (k, v) signed /\ EqualsIgnoreCase k name = true /\
            copied k = true /\ requestHeaderAllowed rt k = true.
Proof.
  revert m. induction signed as [|[k' v'] l IH]; intros m H.
  - now left.
  - rewrite addSignerHeaders_cons in H. simpl fst in H; simpl snd in H.
    destruct (copied k') eqn:Hk.
    + apply IH in H as [H|(k & Hin & E & Hc & Ha)].
      * unfold Http.TryAddWithoutValidation in H.
        destruct (requestHeaderAllowed rt k') eqn:Ha; simpl in H; [|now left].
        destruct H as (vs & Hvs & Hin).
        rewrite HeaderFacts.TryGetValues_add_value in Hvs.
        destruct (EqualsIgnoreCase k' name) eqn:E.
        -- injection Hvs as <-.
           destruct (Http.TryGetValues name (Http.Headers m)) as [old|] eqn:Hold.
           ++ apply in_app_or in Hin as [Hin|[<-|[]]].
              ** left. now exists old.
              ** right. exists k'. repeat split; trivial. now left.
           ++ destruct Hin as [<-|[]].
              right. exists k'. repeat split; trivial. now left.
        -- left. now exists vs.
      * right. exists k. repeat split; trivial. now right.
    + apply IH in H as [H|(k & Hin & E & Hc & Ha)]; [now left|].
      right. exists k. repeat split; trivial. now right.
Qed.

(** *** One call, step by step *)

Lemma RunGraphql_unresolved (this : AppSyncOperations) (query operationName : text)
    (variables : list (text * JToken)) (h : History) :
  credentialChain rt h = None ->
  RunGraphql rt this query operationName variables h =
  (Thrown (AmazonServiceException (txt "Unable to find credentials")),
   h ++ [CredentialsRequested None]).
Proof.
  intros H. unfold RunGraphql, bind, GetCredentialsAsync. now rewrite H.
Qed.

Lemma RunGraphql_resolved (this : AppSyncOperations) (query operationName : text)
    (variables : list (text * JToken)) (h : History)
    (credentials : Aws.ImmutableCredentials) :
  credentialChain rt h = Some credentials ->
  let before := historyOf this query operationName variables credentials h in
  let message := messageOf rt this query operationName variables credentials h in
  RunGraphql rt this query operationName variables h =
  (match server rt before message with
   | Some response => Http.EnsureSuccessStatusCode response
   | None => Thrown (HttpRequestException
                       (txt "An error occurred while sending the request.") None)
   end,
   before ++ [RequestSent message]).
Proof.
  intros H. unfold RunGraphql, bind, GetCredentialsAsync, Sign, SendAsync, lift.
  rewrite H. cbv zeta.
  unfold historyOf, messageOf, signedOf, requestOf, draftOf, contentOf.
  replace (h ++ [CredentialsRequested (Some credentials);
                 SignatureComputed
                   (awsRequest this
                      (httpRequestMessage this credentials
                         (Http.StringContent
                            (jsonPayload query operationName variables)
                            Http.Application_Json))
                      (rawBytes
                         (Http.StringContent
                            (jsonPayload query operationName variables)
                            Http.Application_Json)))
                   Aws.AmazonAppSyncConfig credentials])
    with ((h ++ [CredentialsRequested (Some credentials)]) ++
          [SignatureComputed
             (awsRequest this
                (httpRequestMessage this credentials
                   (Http.StringContent
                      (jsonPayload query operationName variables)
                      Http.Application_Json))
                (rawBytes
                   (Http.StringContent
                      (jsonPayload query operationName variables)
                      Http.Application_Json)))
             Aws.AmazonAppSyncConfig credentials])
    by (now rewrite <- app_assoc).
  destruct (server rt _ _); reflexivity.
Qed.

(** What a call that resolves credentials adds to the history. *)
Lemma RunGraphql_history (this : AppSyncOperations) (query operationName : text)
    (variables : list (text * JToken)) (h : History)
    (credentials : Aws.ImmutableCredentials) :
  credentialChain rt h = Some credentials ->
  snd (RunGraphql rt this query operationName variables h) =
  h ++ [CredentialsRequested (Some credentials);
        SignatureComputed
          (requestOf this query operationName variables credentials)
          Aws.AmazonAppSyncConfig credentials;
        RequestSent (messageOf rt this query operationName variables credentials h)].
Proof.
  intros H. rewrite (RunGraphql_resolved _ _ _ _ _ H). cbv zeta.
  unfold historyOf. cbn [snd]. now rewrite <- app_assoc.
Qed.

Lemma RunGraphql_calls (this : AppSyncOperations) (query operationName : text)
    (variables : list (text * JToken)) (h : History)
    (credentials : Aws.ImmutableCredentials) :
  credentialChain rt h = Some credentials ->
  signatures (snd (RunGraphql rt this query operationName variables h)) =
    signatures h ++
    [(requestOf this query operationName variables credentials,
      Aws.AmazonAppSyncConfig, credentials)] /\
  network_calls (snd (RunGraphql rt this query operationName variables h)) =
    network_calls h ++
    [messageOf rt this query operationName variables credentials h].
Proof.
  intros H. rewrite (RunGraphql_history _ _ _ _ _ H).
  now rewrite signatures_app, network_calls_app.
Qed.
End DispatcherFacts.

(* ================================================================== *)
(** * Reading back what the writer wrote *)

Module JsonFacts.
Import Json.

(** ** Numbers *)

Lemma ends_number_head (c : char) (rest : text) :
  ends_number (c :: rest) ->
  is_digit c = false /\ (c =? 46)%N = false /\
  (c =? 69)%N = false /\ (c =? 101)%N = false.
Proof.
  cbn. unfold continues_number. intros H.
  apply orb_false_iff in H as [H H3]. apply orb_false_iff in H as [H H2].
  apply orb_false_iff in H as [H H1]. auto.
Qed.

Lemma uint_of_digits_digits_of_uint (u : Decimal.uint) (rest : text) :
  ends_number rest -> uint_of_digits (digits_of_uint u ++ rest) = (u, rest).
Proof.
  intros Hr. induction u; cbn [digits_of_uint app];
    try (cbn [uint_of_digits]; rewrite IHu; reflexivity).
  destruct rest as [|c rest]; [reflexivity|].
  destruct (ends_number_head Hr) as (Hd & _).
  cbn [uint_of_digits]. now rewrite Hd.
Qed.

Lemma is_digit_bounds (c : char) :
  is_digit c = true <-> (48 <= c <= 57)%N.
Proof.
  unfold is_digit. rewrite andb_true_iff, !N.leb_le. tauto.
Qed.

Lemma digits_of_uint_head (u : Decimal.uint) :
  u <> Decimal.Nil ->
  exists c tl, digits_of_uint u = c :: tl /\ is_digit c = true.
Proof.
  destruct u; [congruence|..]; intros _; cbn; eauto.
Qed.

Lemma to_int_nonnil (z : Z) :
  match Z.to_int z with
  | Decimal.Pos u | Decimal.Neg u => u <> Decimal.Nil
  end.
Proof.
  destruct z; cbn; try apply DecimalPos.Unsigned.to_uint_nonnil.
  discriminate.
Qed.

(** The first character of a number is a digit or the minus sign. *)
Lemma Int_ToString_head (z : Z) :
  exists c tl, Int_ToString z = c :: tl /\ (is_digit c = true \/ c = 45%N).
Proof.
  unfold Int_ToString. pose proof (to_int_nonnil z) as H.
  destruct (Z.to_int z) as [u|u].
  - destruct (digits_of_uint_head H) as (c & tl & -> & Hc). eauto.
  - eauto.
Qed.

Lemma read_integer_Int_ToString (z : Z) (rest : text) :
  ends_number rest ->
  read_integer (Int_ToString z ++ rest) = Some (z, rest).
Proof.
  intros Hr. unfold Int_ToString.
  pose proof (to_int_nonnil z) as Hn. pose proof (DecimalZ.of_to z) as Hz.
  destruct (Z.to_int z) as [u|u].
  - destruct (digits_of_uint_head Hn) as (c & tl & E & Hc).
    pose proof (uint_of_digits_digits_of_uint u rest Hr) as Hu.
    unfold read_integer. rewrite E in Hu |- *. cbn [app] in Hu |- *.
    apply is_digit_bounds in Hc.
    destruct (N.eqb_spec c 45); [lia|].
    rewrite Hu. destruct u; [congruence|..]; now rewrite Hz.
  - cbn [app read_integer]. cbn [N.eqb Pos.eqb].
    rewrite (uint_of_digits_digits_of_uint u rest Hr).
    destruct u; [congruence|..]; now rewrite Hz.
Qed.

(** ** Numbers with a fraction or an exponent *)

Lemma char_digit_digit_char (d : digit) : char_digit (digit_char d) = Some d.
Proof. destruct d; reflexivity. Qed.

Lemma is_digit_digit_char (d : digit) : is_digit (digit_char d) = true.
Proof. destruct d; reflexivity. Qed.

Lemma char_digit_None (c : char) : is_digit c = false -> char_digit c = None.
Proof.
  intros H. unfold char_digit.
  repeat match goal with
         | |- context [(c =? ?k)%N] =>
             destruct (N.eqb_spec c k); [subst c; cbn in H; discriminate H|]
         end.
  reflexivity.
Qed.

Lemma ends_number_no_digit (rest : text) : ends_number rest -> no_digit rest.
Proof.
  destruct rest as [|c rest]; [trivial|]. intros H.
  apply char_digit_None. apply (ends_number_head H).
Qed.

Lemma read_digits_written (ds : list digit) (rest : text) :
  no_digit rest -> read_digits (List.map digit_char ds ++ rest) = (ds, rest).
Proof.
  intros Hr. induction ds as [|d ds IH]; cbn [List.map app].
  - destruct rest as [|c rest]; [reflexivity|]. cbn in Hr.
    cbn [read_digits]. now rewrite Hr.
  - cbn [read_digits]. now rewrite char_digit_digit_char, IH.
Qed.

Lemma read_digits_digits_of_uint (u : Decimal.uint) (rest : text) :
  no_digit rest ->
  exists ds, read_digits (digits_of_uint u ++ rest) = (ds, rest).
Proof.
  intros Hr. induction u as [|u IH|u IH|u IH|u IH|u IH|u IH|u IH|u IH|u IH|u IH];
    cbn [digits_of_uint app];
    try (destruct IH as [ds IH]; cbn [read_digits]; cbn; rewrite IH; eauto).
  exists []. apply (read_digits_written [] rest Hr).
Qed.

Lemma read_exponent_none (rest : text) :
  ends_number rest -> read_exponent rest = None.
Proof.
  destruct rest as [|c rest]; [reflexivity|]. intros H.
  destruct (ends_number_head H) as (_ & _ & H1 & H2).
  cbn [read_exponent]. now rewrite H1, H2.
Qed.

Lemma read_exponent_written (e : Exponent) (rest : text) :
  no_digit rest -> read_exponent (write_exponent e ++ rest) = Some (e, rest).
Proof.
  intros Hr. destruct e as [minus [d ds]].
  unfold write_exponent, write_digits. cbn [leading following].
  pose proof (read_digits_written (d :: ds) rest Hr) as R.
  destruct minus; cbn [app read_exponent]; cbn [N.eqb Pos.eqb orb];
    now rewrite R.
Qed.

(** The reader of numbers takes no integer for a number with a fraction. *)
Lemma read_unsigned_float_digits (negative : bool) (u : Decimal.uint) (rest : text) :
  ends_number rest -> read_unsigned_float negative (digits_of_uint u ++ rest) = None.
Proof.
  intros Hr. unfold read_unsigned_float.
  destruct (read_digits_digits_of_uint u rest (ends_number_no_digit rest Hr))
    as [ds ->].
  destruct ds as [|d ds]; [reflexivity|].
  destruct rest as [|c rest]; [reflexivity|].
  destruct (ends_number_head Hr) as (_ & -> & _).
  now rewrite (read_exponent_none (c :: rest) Hr).
Qed.

Lemma read_float_Int_ToString (z : Z) (rest : text) :
  ends_number rest -> read_float (Int_ToString z ++ rest) = None.
Proof.
  intros Hr. unfold Int_ToString, read_float.
  pose proof (to_int_nonnil z) as Hn.
  destruct (Z.to_int z) as [u|u].
  - destruct (digits_of_uint_head Hn) as (c & tl & E & Hc).
    pose proof (read_unsigned_float_digits false u rest Hr) as R.
    rewrite E in R |- *. cbn [app read_sign] in R |- *.
    apply is_digit_bounds in Hc.
    destruct (N.eqb_spec c 45); [lia|]. exact R.
  - cbn [app read_sign]. cbn [N.eqb Pos.eqb].
    apply read_unsigned_float_digits, Hr.
Qed.

Lemma read_float_written (t : FloatText) (rest : text) :
  ends_number rest -> read_float (write_float_text t ++ rest) = Some (t, rest).
Proof.
  intros Hr. pose proof (ends_number_no_digit rest Hr) as Hn.
  destruct t as [neg [w ws] tl].
  unfold write_float_text, read_float, write_digits.
  cbn [negative whole ending leading following].
  assert (S : forall s,
            read_sign ((if neg then [45%N] else []) ++
                       List.map digit_char (w :: ws) ++ s) =
            (neg, List.map digit_char (w :: ws) ++ s)).
  { intros s. destruct neg; [reflexivity|]. cbn [app List.map read_sign].
    pose proof (is_digit_digit_char w) as Hw. apply is_digit_bounds in Hw.
    destruct (N.eqb_spec (digit_char w) 45); [lia|reflexivity]. }
  rewrite <- !app_assoc, S. unfold read_unsigned_float.
  destruct tl as [[f fs] [e|]|e].
  - cbn [app leading following]. rewrite read_digits_written by reflexivity.
    cbn [N.eqb Pos.eqb]. rewrite <- app_assoc.
    rewrite read_digits_written by (destruct e as [[|] ?]; reflexivity).
    now rewrite (read_exponent_written e rest Hn).
  - cbn [app leading following]. rewrite read_digits_written by reflexivity.
    cbn [N.eqb Pos.eqb]. rewrite (read_digits_written (f :: fs) rest Hn).
    now rewrite (read_exponent_none rest Hr).
  - rewrite read_digits_written by (destruct e as [[|] ?]; reflexivity).
    destruct e as [minus ds]. cbn [write_exponent app]. cbn [N.eqb Pos.eqb].
    change (69%N :: (if minus then 45%N else 43%N) :: write_digits ds ++ rest)
      with (write_exponent (Exp minus ds) ++ rest).
    now rewrite (read_exponent_written (Exp minus ds) rest Hn).
Qed.

(** The first character of a number with a fraction or an exponent. *)
Lemma Float_ToString_head (x : FloatValue) :
  exists c tl, Float_ToString x = c :: tl /\
               (is_digit c = true \/ c = 45%N \/ c = quote).
Proof.
  destruct x as [[[|] [w ws] tl]| | |];
    try (eexists _, _; split; [reflexivity|]; auto; fail).
  eexists _, _. split; [reflexivity|]. left. apply is_digit_digit_char.
Qed.

(** ** Strings *)

Lemma hex_value_hex_digit (n : N) :
  (n < 16)%N -> hex_value (hex_digit n) = Some n.
Proof.
  intros Hn. unfold hex_value, hex_digit.
  destruct (N.ltb_spec n 10).
  - destruct (N.leb_spec 48 (48 + n)); [|lia].
    destruct (N.leb_spec (48 + n) 57); [|lia].
    cbn [andb]. f_equal. lia.
  - destruct (N.leb_spec 48 (87 + n)); [|lia].
    destruct (N.leb_spec (87 + n) 57); [lia|].
    destruct (N.leb_spec 97 (87 + n)); [|lia].
    destruct (N.leb_spec (87 + n) 102); [|lia].
    cbn [andb]. f_equal. lia.
Qed.

Lemma hex4_digits (c : char) :
  (c < 65536)%N ->
  hex4 (hex_digit ((c / 4096) mod 16)) (hex_digit ((c / 256) mod 16))
       (hex_digit ((c / 16) mod 16)) (hex_digit (c mod 16)) = Some c.
Proof.
  intros Hc. unfold hex4.
  rewrite !hex_value_hex_digit by (apply N.mod_lt; discriminate).
  f_equal.
  pose proof (N.div_mod c 16 ltac:(discriminate)) as E0.
  pose proof (N.div_mod (c / 16) 16 ltac:(discriminate)) as E1.
  pose proof (N.div_mod (c / 16 / 16) 16 ltac:(discriminate)) as E2.
  rewrite (N.Div0.div_div c 16 16) in E1, E2.
  change (16 * 16)%N with 256%N in E1, E2.
  rewrite (N.Div0.div_div c 256 16) in E2.
  change (256 * 16)%N with 4096%N in E2.
  assert (H3 : (c / 4096 < 16)%N)
    by (apply N.Div0.div_lt_upper_bound; exact Hc).
  rewrite (N.mod_small (c / 4096) 16 H3). lia.
Qed.

Lemma short_escape_Some (c e : char) :
  short_escape c = Some e ->
  (e =? 117)%N = false /\ unescape e = Some c /\ (e <? 128)%N = true.
Proof.
  unfold short_escape.
  repeat match goal with
         | |- context [(c =? ?k)%N] =>
             destruct (N.eqb_spec c k);
             [subst c; intros [= <-]; repeat split; reflexivity|]
         end.
  discriminate.
Qed.

Lemma short_escape_None (c : char) :
  short_escape c = None -> (c =? quote)%N = false /\ (c =? backslash)%N = false.
Proof.
  unfold short_escape, quote, backslash.
  repeat match goal with
         | |- context [if (c =? ?k)%N then _ else _] =>
             destruct (N.eqb_spec c k); [discriminate|]
         end.
  intros _. split; reflexivity.
Qed.

Lemma needs_unicode_escape_lt (c : char) :
  needs_unicode_escape c = true -> (c < 65536)%N.
Proof.
  unfold needs_unicode_escape. rewrite !orb_true_iff, N.ltb_lt, !N.eqb_eq.
  lia.
Qed.

Lemma read_string_escape_char (c : char) (s : text) :
  read_string (escape_char c ++ s) =
  match read_string s with
  | Some (str, r) => Some (c :: str, r)
  | None => None
  end.
Proof.
  unfold escape_char. destruct (short_escape c) as [e|] eqn:Hs.
  - apply short_escape_Some in Hs as (Hu & He & _).
    cbn [app read_string]. cbn [N.eqb Pos.eqb quote backslash].
    now rewrite Hu, He.
  - destruct (short_escape_None _ Hs) as [Hq Hb].
    destruct (needs_unicode_escape c) eqn:Hn.
    + unfold ToCharAsUnicode. cbn [app read_string].
      cbn [N.eqb Pos.eqb quote backslash].
      now rewrite (hex4_digits (needs_unicode_escape_lt _ Hn)).
    + cbn [app read_string]. rewrite Hq, Hb.
      unfold needs_unicode_escape in Hn.
      apply orb_false_iff in Hn as [Hn _]. apply orb_false_iff in Hn as [Hn _].
      apply orb_false_iff in Hn as [Hn _]. now rewrite Hn.
Qed.

(** The reader gives back the characters of a written string. *)
Lemma read_string_written (s rest : text) :
  read_string (flat_map escape_char s ++ quote :: rest) = Some (s, rest).
Proof.
  induction s as [|c s IH].
  - reflexivity.
  - cbn [flat_map]. rewrite <- app_assoc, read_string_escape_char.
    now rewrite IH.
Qed.

(** ** Values *)

Section Induction.
Variable P : JToken -> Prop.
Hypothesis P_null : P JNull.
Hypothesis P_bool : forall b, P (JBool b).
Hypothesis P_integer : forall z, P (JInteger z).
Hypothesis P_float : forall x, P (JFloat x).
Hypothesis P_string : forall s, P (JString s).
Hypothesis P_array : forall items, Forall P items -> P (JArray items).
Hypothesis P_object :
  forall members, Forall (fun kx => P (snd kx)) members -> P (JObject members).

Fixpoint JToken_induction (v : JToken) : P v :=
  match v with
  | JNull => P_null
  | JBool b => P_bool b
  | JInteger z => P_integer z
  | JFloat x => P_float x
  | JString s => P_string s
  | JArray items =>
      P_array
        ((fix all (l : list JToken) : Forall P l :=
            match l with
            | [] => Forall_nil P
            | x :: r => Forall_cons x (JToken_induction x) (all r)
            end) items)
  | JObject members =>
      P_object
        ((fix all (l : list (text * JToken))
            : Forall (fun kx => P (snd kx)) l :=
            match l with
            | [] => Forall_nil _
            | kx :: r =>
                Forall_cons (P := fun kx => P (snd kx)) kx
                  (JToken_induction (snd kx)) (all r)
            end) members)
  end.
End Induction.

Lemma WriteToken_JArray (items : list JToken) :
  WriteToken (JArray items) = 91%N :: write_elements items.
Proof.
  reflexivity.
Qed.

Lemma WriteToken_JObject (members : list (text * JToken)) :
  WriteToken (JObject members) = 123%N :: write_properties members.
Proof.
  reflexivity.
Qed.

(** The first character of a written value: it is not a closing
    bracket. *)
Lemma WriteToken_head (v : JToken) :
  exists c tl, WriteToken v = c :: tl /\
               (c =? 93)%N = false /\ (c =? 125)%N = false.
Proof.
  destruct v as [|[|]|z|x|s|items|members];
    try (cbn; eexists _, _; split; [reflexivity|split; reflexivity]).
  - destruct (Int_ToString_head z) as (c & tl & E & [Hc| ->]).
    + cbn [WriteToken]. rewrite E. eexists _, _. split; [reflexivity|].
      apply is_digit_bounds in Hc. split; apply N.eqb_neq; lia.
    + cbn [WriteToken]. rewrite E. eexists _, _.
      split; [reflexivity|split; reflexivity].
  - destruct (Float_ToString_head x) as (c & tl & E & [Hc|[->| ->]]).
    + cbn [WriteToken]. rewrite E. eexists _, _. split; [reflexivity|].
      apply is_digit_bounds in Hc. split; apply N.eqb_neq; lia.
    + cbn [WriteToken]. rewrite E. eexists _, _.
      split; [reflexivity|split; reflexivity].
    + cbn [WriteToken]. rewrite E. eexists _, _.
      split; [reflexivity|split; reflexivity].
Qed.

Lemma read_value_S (fuel : nat) (c : char) (rest : text) :
  read_value (S fuel) (c :: rest) =
  if (c =? quote)%N then
    match read_string rest with
    | Some (str, r) => Some (JString str, r)
    | None => None
    end
  else if (c =? 91)%N then
    match rest with
    | [] => None
    | c' :: r =>
        if (c' =? 93)%N then Some (JArray [], r)
        else
          match read_elements fuel rest with
          | Some (l, r') => Some (JArray l, r')
          | None => None
          end
    end
  else if (c =? 123)%N then
    match rest with
    | [] => None
    | c' :: r =>
        if (c' =? 125)%N then Some (JObject [], r)
        else
          match read_properties fuel rest with
          | Some (l, r') => Some (JObject l, r')
          | None => None
          end
    end
  else
    match strip_prefix (txt "null") (c :: rest) with
    | Some r => Some (JNull, r)
    | None =>
    match strip_prefix (txt "true") (c :: rest) with
    | Some r => Some (JBool true, r)
    | None =>
    match strip_prefix (txt "false") (c :: rest) with
    | Some r => Some (JBool false, r)
    | None =>
    match read_float (c :: rest) with
    | Some (t, r) => Some (JFloat (Finite t), r)
    | None =>
    match read_integer (c :: rest) with
    | Some (z, r) => Some (JInteger z, r)
    | None => None
    end end end end end.
Proof. reflexivity. Qed.

Lemma read_elements_S (fuel : nat) (s : text) :
  read_elements (S fuel) s =
  match read_value fuel s with
  | Some (x, c :: r) =>
      if (c =? 93)%N then Some ([x], r)
      else if (c =? comma)%N then
        match read_elements fuel r with
        | Some (l, r') => Some (x :: l, r')
        | None => None
        end
      else None
  | _ => None
  end.
Proof. reflexivity. Qed.

Lemma read_properties_S (fuel : nat) (q : char) (s1 : text) :
  read_properties (S fuel) (q :: s1) =
  if (q =? quote)%N then
    match read_string s1 with
    | Some (k, c :: s2) =>
        if (c =? colon)%N then
          match read_value fuel s2 with
          | Some (x, d :: r) =>
              if (d =? 125)%N then Some ([(k, x)], r)
              else if (d =? comma)%N then
                match read_properties fuel r with
                | Some (l, r') => Some ((k, x) :: l, r')
                | None => None
                end
              else None
          | _ => None
          end
        else None
    | _ => None
    end
  else None.
Proof. reflexivity. Qed.

Ltac lengths H :=
  repeat first [rewrite length_app in H | progress (cbn [List.length] in H)].

Lemma read_elements_written (l : list JToken) :
  Forall reads_back l -> l <> [] ->
  forall fuel rest,
    List.length (write_elements l) <= fuel ->
    read_elements fuel (write_elements l ++ rest) = Some (l, rest).
Proof.
  induction 1 as [|x l Hx Hl IH]; [congruence|]. intros _ fuel rest Hf.
  cbn [write_elements] in Hf |- *.
  destruct (WriteToken_head x) as (c & tl & E & _).
  destruct fuel as [|fuel];
    [rewrite E in Hf; cbn in Hf; lia|].
  rewrite read_elements_S, <- app_assoc.
  destruct l as [|y l']; cbn [app]; lengths Hf.
  - rewrite Hx by (cbn; trivial; lia). reflexivity.
  - rewrite Hx by (cbn; trivial; lia). cbn [N.eqb Pos.eqb comma].
    rewrite IH by (congruence || lia). reflexivity.
Qed.

Lemma read_properties_written (l : list (text * JToken)) :
  Forall (fun kx => reads_back (snd kx)) l -> l <> [] ->
  forall fuel rest,
    List.length (write_properties l) <= fuel ->
    read_properties fuel (write_properties l ++ rest) = Some (l, rest).
Proof.
  induction 1 as [|[k x] l Hx Hl IH]; [congruence|]. intros _ fuel rest Hf.
  cbn [snd] in Hx. cbn [write_properties] in Hf |- *.
  unfold WriteString in Hf |- *. cbn [app List.length] in Hf |- *.
  destruct fuel as [|fuel]; [lia|].
  rewrite read_properties_S. cbn [N.eqb Pos.eqb quote].
  rewrite <- !app_assoc. cbn [app].
  rewrite read_string_written. cbn [N.eqb Pos.eqb colon].
  rewrite <- app_assoc.
  destruct l as [|y l']; cbn [app]; lengths Hf.
  - rewrite Hx by (cbn; trivial; lia). reflexivity.
  - rewrite Hx by (cbn; trivial; lia). cbn [N.eqb Pos.eqb comma].
    rewrite IH by (congruence || lia). reflexivity.
Qed.

Lemma strip_prefix_other (a c : char) (p s : text) :
  (a =? c)%N = false -> strip_prefix (a :: p) (c :: s) = None.
Proof. intros H. cbn [strip_prefix]. now rewrite H. Qed.

Lemma write_elements_head (x : JToken) (l : list JToken) (rest : text) :
  exists c tl, write_elements (x :: l) ++ rest = c :: tl /\ (c =? 93)%N = false.
Proof.
  destruct (WriteToken_head x) as (c & tl & E & H & _).
  cbn [write_elements]. rewrite E. cbn [app]. eauto.
Qed.

Lemma number_is_no_word (c : char) :
  is_digit c = true \/ c = 45%N ->
  (c =? quote)%N = false /\ (c =? 91)%N = false /\
  (c =? 123)%N = false /\ (110 =? c)%N = false /\
  (116 =? c)%N = false /\ (102 =? c)%N = false.
Proof.
  intros Hc. unfold quote. rewrite !N.eqb_neq.
  destruct Hc as [Hc| ->]; [apply is_digit_bounds in Hc; lia|].
  repeat split; discriminate.
Qed.

Lemma forallb_Forall {A} (f : A -> bool) (P : A -> Prop) (l : list A) :
  forallb f l = true -> Forall (fun x => f x = true -> P x) l -> Forall P l.
Proof.
  intros Hf H. induction H as [|x l Hx Hl IH]; [constructor|].
  cbn [forallb] in Hf. apply andb_prop in Hf as [Hf1 Hf2].
  constructor; auto.
Qed.

(** The reader gives back every written value whose numbers are finite. *)
Theorem read_value_written (v : JToken) : finite_token v = true -> reads_back v.
Proof.
  induction v using JToken_induction; intros Hv fuel rest Hf Hr.
  - destruct fuel; [cbn in Hf; lia|]. reflexivity.
  - destruct fuel; [destruct b; cbn in Hf; lia|]. destruct b; reflexivity.
  - cbn [WriteToken] in Hf |- *.
    destruct (Int_ToString_head z) as (c & tl & E & Hc).
    destruct fuel; [rewrite E in Hf; cbn in Hf; lia|].
    rewrite E. cbn [app]. rewrite read_value_S.
    destruct (number_is_no_word Hc) as (-> & -> & -> & B1 & B2 & B3).
    change (txt "null") with [110; 117; 108; 108]%N.
    change (txt "true") with [116; 114; 117; 101]%N.
    change (txt "false") with [102; 97; 108; 115; 101]%N.
    rewrite !strip_prefix_other by assumption.
    change (c :: tl ++ rest) with ((c :: tl) ++ rest).
    rewrite <- E, (read_float_Int_ToString z rest Hr),
            (read_integer_Int_ToString z rest Hr). reflexivity.
  - destruct x as [t| | |]; try discriminate Hv.
    cbn [WriteToken Float_ToString] in Hf |- *.
    destruct (Float_ToString_head (Finite t)) as (c & tl & E & Hc).
    cbn [Float_ToString] in E.
    assert (Hc' : is_digit c = true \/ c = 45%N).
    { destruct Hc as [Hc|[Hc|Hc]]; auto.
      exfalso. subst c. destruct t as [[|] [w ws] tl'].
      - discriminate E.
      - injection E as E _. pose proof (is_digit_digit_char w) as Hw.
        rewrite E in Hw. discriminate Hw. }
    destruct fuel; [rewrite E in Hf; cbn in Hf; lia|].
    rewrite E. cbn [app]. rewrite read_value_S.
    destruct (number_is_no_word Hc') as (-> & -> & -> & B1 & B2 & B3).
    change (txt "null") with [110; 117; 108; 108]%N.
    change (txt "true") with [116; 114; 117; 101]%N.
    change (txt "false") with [102; 97; 108; 115; 101]%N.
    rewrite !strip_prefix_other by assumption.
    change (c :: tl ++ rest) with ((c :: tl) ++ rest).
    rewrite <- E, (read_float_written t rest Hr). reflexivity.
  - destruct fuel; [cbn in Hf; lia|].
    cbn [WriteToken]. unfold WriteString. cbn [app].
    rewrite read_value_S, N.eqb_refl, <- app_assoc. cbn [app].
    now rewrite read_string_written.
  - cbn [finite_token] in Hv. pose proof (forallb_Forall _ _ Hv H) as H'.
    rewrite WriteToken_JArray in Hf |- *.
    destruct fuel; [cbn in Hf; lia|]. cbn [app List.length] in Hf |- *.
    rewrite read_value_S. cbn [N.eqb Pos.eqb quote].
    destruct items as [|x l]; [reflexivity|].
    destruct (write_elements_head x l rest) as (c & tl & E & Hc).
    pose proof (read_elements_written H' ltac:(discriminate) (fuel := fuel) rest
                  ltac:(lia)) as R.
    rewrite E in R |- *. now rewrite Hc, R.
  - cbn [finite_token] in Hv.
    pose proof (forallb_Forall (fun kx => finite_token (snd kx))
                  (fun kx => reads_back (snd kx)) Hv H) as H'.
    rewrite WriteToken_JObject in Hf |- *.
    destruct fuel; [cbn in Hf; lia|]. cbn [app List.length] in Hf |- *.
    rewrite read_value_S. cbn [N.eqb Pos.eqb quote].
    destruct members as [|[k x] l]; [reflexivity|].
    pose proof (read_properties_written H' ltac:(discriminate) (fuel := fuel) rest
                  ltac:(lia)) as R.
    cbn [write_properties] in R |- *. unfold WriteString in R |- *.
    cbn [app] in R |- *. cbn [N.eqb Pos.eqb quote]. now rewrite R.
Qed.

(** A standard reader gives back what the writer wrote, for values whose
    numbers are finite. *)
Corollary Parse_WriteToken (v : JToken) :
  finite_token v = true -> Parse (WriteToken v) = Some v.
Proof.
  intros Hv. unfold Parse.
  pose proof (read_value_written v Hv (fuel := S (List.length (WriteToken v)))
                [] ltac:(lia) I) as R.
  rewrite List.app_nil_r in R. now rewrite R.
Qed.

(** ** Values of ASCII strings are written in ASCII *)

Import ASCII ASCIIFacts.

Lemma is_ascii_digits (u : Decimal.uint) : is_ascii (digits_of_uint u) = true.
Proof. induction u; cbn; trivial. Qed.

Lemma is_ascii_Int_ToString (z : Z) : is_ascii (Int_ToString z) = true.
Proof.
  unfold Int_ToString. destruct (Z.to_int z); cbn; apply is_ascii_digits.
Qed.

Lemma hex_digit_lt (n : N) : (n < 16)%N -> (hex_digit n <? 128)%N = true.
Proof.
  intros H. apply N.ltb_lt. unfold hex_digit.
  destruct (N.ltb_spec n 10); lia.
Qed.

Lemma is_ascii_escape_char (c : char) :
  (c <? 128)%N = true -> is_ascii (escape_char c) = true.
Proof.
  intros Hc. unfold escape_char.
  destruct (short_escape c) as [e|] eqn:Hs.
  - apply short_escape_Some in Hs as (_ & _ & He). cbn. now rewrite He.
  - destruct (needs_unicode_escape c).
    + unfold ToCharAsUnicode, is_ascii. cbn [forallb].
      rewrite !hex_digit_lt by (apply N.mod_lt; discriminate). reflexivity.
    + cbn. now rewrite Hc.
Qed.

Lemma is_ascii_escaped (s : text) :
  is_ascii s = true -> is_ascii (flat_map escape_char s) = true.
Proof.
  induction s as [|c s IH]; [reflexivity|]. cbn [is_ascii forallb flat_map].
  intros H. apply andb_prop in H as [Hc Hs].
  rewrite is_ascii_app, is_ascii_escape_char by exact Hc. now apply IH.
Qed.

Lemma is_ascii_WriteString (s : text) :
  is_ascii s = true -> is_ascii (WriteString s) = true.
Proof.
  intros H. unfold WriteString.
  change (quote :: flat_map escape_char s ++ [quote])
    with ([quote] ++ flat_map escape_char s ++ [quote]).
  rewrite !is_ascii_app, is_ascii_escaped by exact H. reflexivity.
Qed.

Lemma is_ascii_cons (c : char) (s : text) :
  is_ascii (c :: s) = (c <? 128)%N && is_ascii s.
Proof. reflexivity. Qed.

Lemma is_ascii_digit_chars (ds : list digit) :
  is_ascii (List.map digit_char ds) = true.
Proof.
  induction ds as [|d ds IH]; [reflexivity|]. cbn [List.map].
  rewrite is_ascii_cons, IH. now destruct d.
Qed.

Lemma is_ascii_write_exponent (e : Exponent) : is_ascii (write_exponent e) = true.
Proof.
  destruct e as [[|] ds]; unfold write_exponent, write_digits;
    rewrite !is_ascii_cons, is_ascii_digit_chars; reflexivity.
Qed.

Lemma is_ascii_Float_ToString (x : FloatValue) : is_ascii (Float_ToString x) = true.
Proof.
  destruct x as [[neg w tl]| | |]; try reflexivity.
  cbn [Float_ToString]. unfold write_float_text, write_digits.
  cbn [negative whole ending].
  rewrite !is_ascii_app, is_ascii_digit_chars.
  destruct neg, tl as [f [e|]|e];
    rewrite ?is_ascii_cons, ?is_ascii_app, ?is_ascii_digit_chars,
            ?is_ascii_write_exponent; reflexivity.
Qed.

Theorem is_ascii_WriteToken (v : JToken) :
  ascii_token v = true -> is_ascii (WriteToken v) = true.
Proof.
  induction v using JToken_induction; intros Hv.
  - reflexivity.
  - now destruct b.
  - apply is_ascii_Int_ToString.
  - apply is_ascii_Float_ToString.
  - now apply is_ascii_WriteString.
  - rewrite WriteToken_JArray, is_ascii_cons. cbn [ascii_token] in Hv.
    cbn [N.ltb N.compare Pos.compare Pos.compare_cont andb].
    induction H as [|x l Hx Hl IH]; [reflexivity|].
    cbn [forallb] in Hv. apply andb_prop in Hv as [Hv1 Hv2].
    cbn [write_elements]. rewrite is_ascii_app, (Hx Hv1).
    destruct l; [reflexivity|]. rewrite is_ascii_cons. now apply IH.
  - rewrite WriteToken_JObject, is_ascii_cons. cbn [ascii_token] in Hv.
    cbn [N.ltb N.compare Pos.compare Pos.compare_cont andb].
    induction H as [|[k x] l Hx Hl IH]; [reflexivity|].
    cbn [forallb fst snd] in Hv, Hx.
    apply andb_prop in Hv as [Hv1 Hv2]. apply andb_prop in Hv1 as [Hk Hv1].
    cbn [write_properties].
    rewrite is_ascii_app, (is_ascii_WriteString _ Hk), is_ascii_cons,
            is_ascii_app, (Hx Hv1).
    destruct l; [reflexivity|]. rewrite is_ascii_cons. now apply IH.
Qed.
End JsonFacts.

(* ================================================================== *)
(** * The properties of the dispatcher *)

Section DispatcherProperties.
Variable rt : Runtime.
Variable this : AppSyncOperations.
Variables query operationName : text.
Variable variables : list (text * JToken).
Variable h : History.

Local Notation "'run'" := (RunGraphql rt this query operationName variables h).
Local Notation "'draft' c" := (draftOf this query operationName variables c)
  (at level 10).
Local Notation "'request' c" := (requestOf this query operationName variables c)
  (at level 10).
Local Notation "'signed' c" := (signedOf rt this query operationName variables c h)
  (at level 10).
Local Notation "'message' c" := (messageOf rt this query operationName variables c h)
  (at level 10).

(** C1. The merge after signing copies each header of the signer's
    request into the outgoing request, except the four protected ones
    (content-type, content-length, security token, host, in any case);
    for these the outgoing request has the values the request had before
    it was signed, whatever the signer made of them: the request headers
    under a protected name and the content with its headers are those of
    the draft, host and token being the endpoint's host and the
    credentials' token.  A header is copied when the request's header
    collection takes its name ([TryAddWithoutValidation]). *)
Theorem merge_protects_and_copies (credentials : Aws.ImmutableCredentials) :
  credentialChain rt h = Some credentials ->
  network_calls (snd run) = network_calls h ++ [message credentials] /\
  (forall name, protected name ->
     Http.TryGetValues name (Http.Headers (message credentials)) =
     Http.TryGetValues name (Http.Headers (draft credentials))) /\
  Http.Content (message credentials) = Http.Content (draft credentials) /\
  Http.TryGetValues Aws.HeaderKeys.HostHeader
    (Http.Headers (message credentials)) =
    Some [Host (_graphQlEndpoint this)] /\
  Http.TryGetValues Aws.HeaderKeys.XAmzSecurityTokenHeader
    (Http.Headers (message credentials)) =
    Some [Aws.Token credentials] /\
  Http.TryGetValues Aws.HeaderKeys.ContentTypeHeader
    (Http.ContentHeaders (Http.Content (message credentials))) =
    Some [txt "application/json; charset=us-ascii"] /\
  (forall k v, In (k, v) (Aws.Headers (signed credentials)) ->
     ~ protected k -> requestHeaderAllowed rt k = true ->
     has_header k v (Http.Headers (message credentials))).
Proof.
  intros Hc.
  split; [apply (RunGraphql_calls rt this query operationName variables h Hc)|].
  unfold messageOf.
  split; [|split; [|split; [|split; [|split]]]].
  - intros name Hn. apply addSignerHeaders_protected.
    now apply copied_false_iff.
  - apply addSignerHeaders_frame.
  - rewrite addSignerHeaders_protected by reflexivity. reflexivity.
  - rewrite addSignerHeaders_protected by reflexivity. reflexivity.
  - destruct (addSignerHeaders_frame rt (Aws.Headers (signed credentials))
                (draft credentials)) as (_ & _ & ->).
    reflexivity.
  - intros k v Hin Hk Ha. apply addSignerHeaders_copies; trivial.
    destruct (copied k) eqn:E; trivial.
    apply copied_false_iff in E. contradiction.
Qed.

(** C2. The bytes of the outgoing request's body are the bytes the
    signature is computed over: the payload is serialized once, and the
    ASCII bytes of that text are both the content of the signer's request
    and the body of the request that is sent. *)
Theorem signed_bytes_are_sent_bytes (credentials : Aws.ImmutableCredentials) :
  credentialChain rt h = Some credentials ->
  signatures (snd run) =
    signatures h ++ [(request credentials, Aws.AmazonAppSyncConfig, credentials)] /\
  network_calls (snd run) = network_calls h ++ [message credentials] /\
  Aws.Content (request credentials) =
    Http.Bytes (Http.Content (message credentials)) /\
  Http.Bytes (Http.Content (message credentials)) =
    ASCII.GetBytes (jsonPayload query operationName variables).
Proof.
  intros Hc.
  destruct (RunGraphql_calls rt this query operationName variables h Hc)
    as [S N].
  split; [exact S|]. split; [exact N|].
  unfold messageOf.
  destruct (addSignerHeaders_frame rt (Aws.Headers (signed credentials))
              (draft credentials)) as (_ & _ & ->).
  split; [|reflexivity].
  unfold requestOf.
  destruct (awsRequest_fields this (draft credentials)
              (rawBytes (contentOf query operationName variables)))
    as (_ & -> & _).
  apply ASCIIFacts.GetBytes_GetString_GetBytes.
Qed.

(** C4. Without credentials in the ambient chain the call fails with the
    chain's error, before a request is built: nothing is signed and no
    request goes out. *)
Theorem no_credentials_no_network_call :
  credentialChain rt h = None ->
  fst run = Thrown (AmazonServiceException (txt "Unable to find credentials")) /\
  network_calls (snd run) = network_calls h /\
  signatures (snd run) = signatures h.
Proof.
  intros Hc. rewrite (RunGraphql_unresolved rt this query operationName
                        variables h Hc). cbn [fst snd].
  rewrite network_calls_app, signatures_app. cbn.
  now rewrite !List.app_nil_r.
Qed.

(** C7. The signature of a call is computed once, for the service name
    appsync, the region the dispatcher was constructed with and the
    credentials the chain resolved for this call (their secret key is
    the key material); the headers of the outgoing request that the
    draft did not have are those of that signature. *)
Theorem signature_scope (credentials : Aws.ImmutableCredentials) :
  credentialChain rt h = Some credentials ->
  signatures (snd run) =
    signatures h ++ [(request credentials, Aws.AmazonAppSyncConfig, credentials)] /\
  Aws.ServiceName (request credentials) = txt "appsync" /\
  Aws.AlternateEndpoint (request credentials) = Some (_awsRegion this) /\
  Aws.Endpoint (request credentials) = _graphQlEndpoint this /\
  network_calls (snd run) = network_calls h ++ [message credentials] /\
  (forall name v, has_header name v (Http.Headers (message credentials)) ->
     has_header name v (Http.Headers (draft credentials)) \/
     exists k, In (k, v) (Aws.Headers (signed credentials)) /\
               EqualsIgnoreCase k name = true).
Proof.
  intros Hc.
  destruct (RunGraphql_calls rt this query operationName variables h Hc)
    as [S N].
  split; [exact S|].
  destruct (awsRequest_fields this (draft credentials)
              (rawBytes (contentOf query operationName variables)))
    as (A & _ & _ & B & C).
  split; [exact A|]. split; [exact C|]. split; [exact B|].
  split; [exact N|].
  intros name v H. apply addSignerHeaders_only in H as [H|(k & Hin & E & _)].
  - now left.
  - right. now exists k.
Qed.

(** C3, as the code has it.  A call that receives a response returns
    when the status is 200 to 299, and otherwise throws the exception of
    [EnsureSuccessStatusCode], which has the status code (and the reason
    phrase in its message) and nothing of the response's body; in either
    case the request went out once. *)
Theorem status_decides_outcome (credentials : Aws.ImmutableCredentials)
    (response : Http.HttpResponseMessage) :
  credentialChain rt h = Some credentials ->
  server rt (historyOf this query operationName variables credentials h)
    (message credentials) = Some response ->
  network_calls (snd run) = network_calls h ++ [message credentials] /\
  ((200 <= Http.StatusCode response <= 299)%Z -> fst run = Returned tt) /\
  (~ (200 <= Http.StatusCode response <= 299)%Z ->
   fst run =
     Thrown (HttpRequestException
               (txt "Response status code does not indicate success: "
                ++ Int_ToString (Http.StatusCode response) ++ txt " ("
                ++ Http.ReasonPhrase response ++ txt ").")
               (Some (Http.StatusCode response)))).
Proof.
  intros Hc Hr.
  split; [apply (RunGraphql_calls rt this query operationName variables h Hc)|].
  rewrite (RunGraphql_resolved rt this query operationName variables h Hc).
  cbv zeta. rewrite Hr. cbn [fst].
  unfold Http.EnsureSuccessStatusCode, Http.IsSuccessStatusCode.
  destruct (Z.leb_spec 200 (Http.StatusCode response)),
           (Z.leb_spec (Http.StatusCode response) 299);
    cbn [andb]; split; intros; trivial; lia.
Qed.
End DispatcherProperties.

Section CallsInSequence.
Variable rt : Runtime.
Variable this : AppSyncOperations.
Variables query operationName : text.
Variable variables : list (text * JToken).
Variable h : History.

Local Notation "'run'" := (RunGraphql rt this query operationName variables h).

(** C9. A call has the dispatcher's endpoint and region as they are and
    changes nothing but the history of calls to the collaborators, to
    which it adds one lookup of the credentials and, when that resolves,
    one signature and one outgoing request (none when it does not).  The
    credentials are those the chain has at the moment of the call: a
    call that follows uses what the chain answers then, and fails when
    it answers nothing, whatever the call before resolved.  What a call
    does depends on earlier calls only through the collaborators: with
    collaborators that answer the same at any moment, it is the same
    after any history. *)
Theorem calls_keep_no_state :
  (forall c, credentialChain rt h = Some c ->
     snd run =
       h ++ [CredentialsRequested (Some c);
             SignatureComputed (requestOf this query operationName variables c)
               Aws.AmazonAppSyncConfig c;
             RequestSent (messageOf rt this query operationName variables c h)] /\
     network_calls (snd run) =
       network_calls h ++ [messageOf rt this query operationName variables c h] /\
     Http.RequestUri (messageOf rt this query operationName variables c h) =
       _graphQlEndpoint this /\
     Aws.AlternateEndpoint (requestOf this query operationName variables c) =
       Some (_awsRegion this)) /\
  (credentialChain rt h = None ->
     snd run = h ++ [CredentialsRequested None] /\
     network_calls (snd run) = network_calls h) /\
  (forall query' operationName' variables',
     let next := RunGraphql rt this query' operationName' variables' (snd run) in
     (forall c', credentialChain rt (snd run) = Some c' ->
        signatures (snd next) =
          signatures (snd run) ++
          [(requestOf this query' operationName' variables' c',
            Aws.AmazonAppSyncConfig, c')] /\
        network_calls (snd next) =
          network_calls (snd run) ++
          [messageOf rt this query' operationName' variables' c' (snd run)] /\
        Http.TryGetValues Aws.HeaderKeys.XAmzSecurityTokenHeader
          (Http.Headers
             (messageOf rt this query' operationName' variables' c' (snd run))) =
          Some [Aws.Token c'] /\
        Http.RequestUri
          (messageOf rt this query' operationName' variables' c' (snd run)) =
          _graphQlEndpoint this /\
        Aws.AlternateEndpoint
          (requestOf this query' operationName' variables' c') =
          Some (_awsRegion this)) /\
     (credentialChain rt (snd run) = None ->
        fst next =
          Thrown (AmazonServiceException (txt "Unable to find credentials")) /\
        network_calls (snd next) = network_calls (snd run))) /\
  ((forall a b, credentialChain rt a = credentialChain rt b) ->
   (forall a b r cfg c, signer rt a r cfg c = signer rt b r cfg c) ->
   (forall a b m, server rt a m = server rt b m) ->
   forall h',
     fst (RunGraphql rt this query operationName variables h') = fst run /\
     exists events,
       snd run = h ++ events /\
       snd (RunGraphql rt this query operationName variables h') = h' ++ events).
Proof.
  assert (frame : forall q o v g c, credentialChain rt g = Some c ->
            Http.RequestUri (messageOf rt this q o v c g) = _graphQlEndpoint this /\
            Aws.AlternateEndpoint (requestOf this q o v c) = Some (_awsRegion this)).
  { intros q o v g c _. split.
    - unfold messageOf.
      destruct (addSignerHeaders_frame rt (Aws.Headers (signedOf rt this q o v c g))
                  (draftOf this q o v c)) as (_ & -> & _).
      reflexivity.
    - unfold requestOf.
      apply (awsRequest_fields this (draftOf this q o v c) (rawBytes (contentOf q o v))). }
  split; [|split; [|split]].
  - intros c Hc. split; [now apply RunGraphql_history|].
    split; [now apply RunGraphql_calls|]. now apply frame.
  - intros Hc. rewrite (RunGraphql_unresolved rt this query operationName
                          variables h Hc). cbn [snd].
    split; trivial. rewrite network_calls_app. cbn. now rewrite List.app_nil_r.
  - intros q' o' v' next. split.
    + intros c' Hc'.
      destruct (RunGraphql_calls rt this q' o' v' (snd run) Hc') as [S N].
      split; [exact S|]. split; [exact N|].
      split; [|now apply frame].
      unfold messageOf.
      rewrite addSignerHeaders_protected by reflexivity. reflexivity.
    + intros Hc'. unfold next.
      rewrite (RunGraphql_unresolved rt this q' o' v' (snd run) Hc').
      cbn [fst snd]. split; trivial.
      rewrite network_calls_app. cbn. now rewrite List.app_nil_r.
  - intros Hchain Hsigner Hserver h'.
    destruct (credentialChain rt h) as [c|] eqn:Hc.
    + assert (Hc' : credentialChain rt h' = Some c)
        by now rewrite (Hchain h' h).
      assert (Hm : messageOf rt this query operationName variables c h' =
                   messageOf rt this query operationName variables c h).
      { unfold messageOf, signedOf. now rewrite (Hsigner _ (h ++ [CredentialsRequested (Some c)])). }
      rewrite (RunGraphql_resolved rt this query operationName variables h Hc),
              (RunGraphql_resolved rt this query operationName variables h' Hc').
      cbv zeta. cbn [fst snd]. rewrite Hm.
      rewrite (Hserver _ (historyOf this query operationName variables c h)).
      split; trivial.
      eexists. unfold historyOf. rewrite <- !app_assoc. split; reflexivity.
    + assert (Hc' : credentialChain rt h' = None)
        by now rewrite (Hchain h' h).
      rewrite (RunGraphql_unresolved rt this query operationName variables h Hc),
              (RunGraphql_unresolved rt this query operationName variables h' Hc').
      split; trivial. eexists; split; reflexivity.
Qed.
End CallsInSequence.

(** C3 as stated fails for the body: no reading of the failure gives back
    the body of the response.  Two responses with the status 403 and
    different bodies make the call fail with the same exception. *)
Lemma failure_does_not_carry_body :
  ~ (exists body_of : Exception -> list byte,
       forall rt this query operationName variables h credentials response,
         credentialChain rt h = Some credentials ->
         server rt (historyOf this query operationName variables credentials h)
           (messageOf rt this query operationName variables credentials h)
           = Some response ->
         ~ (200 <= Http.StatusCode response <= 299)%Z ->
         exists e,
           fst (RunGraphql rt this query operationName variables h) = Thrown e /\
           body_of e = Http.ResponseContent response).
Proof.
  intros [body_of H].
  destruct (H Sample.refusing Sample.dispatcher Sample.ping Sample.Ping [] []
              Sample.credentials Sample.forbidden eq_refl eq_refl)
    as (e1 & E1 & B1); [cbn; lia|].
  destruct (H (Sample.runtime (Sample.always Sample.credentials) (Some Sample.denied))
              Sample.dispatcher Sample.ping Sample.Ping [] []
              Sample.credentials Sample.denied eq_refl eq_refl)
    as (e2 & E2 & B2); [cbn; lia|].
  vm_compute in E1, E2. injection E1 as <-. injection E2 as <-.
  rewrite B1 in B2. vm_compute in B2. discriminate B2.
Qed.

(* ================================================================== *)
(** * The constructor *)

Section Construction.
Variable rt : Runtime.

(** C6. The constructor throws, and gives no dispatcher to call, when
    the endpoint is not a well-formed URI ([UriFormatException]) and when
    the region argument is absent or blank and the environment has no
    [AWS_REGION]; it throws for an endpoint that is [null] too. *)
Theorem constructor_fails_fast (graphQlEndpoint awsRegion : option text) :
  (forall s, graphQlEndpoint = Some s -> uriParser rt s = None ->
     AppSyncOperations_new rt graphQlEndpoint awsRegion =
       Thrown UriFormatException) /\
  (IsNullOrWhiteSpace awsRegion = true ->
   environment rt (txt "AWS_REGION") = None ->
   exists e, AppSyncOperations_new rt graphQlEndpoint awsRegion = Thrown e) /\
  (graphQlEndpoint = None ->
   AppSyncOperations_new rt graphQlEndpoint awsRegion =
     Thrown (ArgumentNullException (txt "uriString"))).
Proof.
  split; [|split].
  - intros s -> Hs. unfold AppSyncOperations_new, new_Uri. now rewrite Hs.
  - intros Hblank Henv. unfold AppSyncOperations_new.
    destruct (new_Uri rt graphQlEndpoint) as [endpoint|e]; cbn [bindO].
    + rewrite Hblank, Henv. cbn. eauto.
    + eauto.
  - intros ->. reflexivity.
Qed.

(** C8. The region of the dispatcher is the one named by the constructor
    argument when the argument is given (not [null] and not blank),
    whatever the environment has; otherwise it is the one named by the
    environment variable [AWS_REGION]. *)
Theorem region_resolution (graphQlEndpoint : text) (endpoint : Uri)
    (awsRegion : option text) :
  uriParser rt graphQlEndpoint = Some endpoint ->
  (forall name, awsRegion = Some name ->
     IsNullOrWhiteSpace awsRegion = false ->
     AppSyncOperations_new rt (Some graphQlEndpoint) awsRegion =
       Returned {| _graphQlEndpoint := endpoint;
                   _awsRegion := regionBySystemName rt name |}) /\
  (forall name, IsNullOrWhiteSpace awsRegion = true ->
     environment rt (txt "AWS_REGION") = Some name ->
     AppSyncOperations_new rt (Some graphQlEndpoint) awsRegion =
       Returned {| _graphQlEndpoint := endpoint;
                   _awsRegion := regionBySystemName rt name |}).
Proof.
  intros Hu. unfold AppSyncOperations_new, new_Uri. rewrite Hu. cbn [bindO].
  split.
  - intros name -> Hgiven. now rewrite Hgiven.
  - intros name Hblank Henv. now rewrite Hblank, Henv.
Qed.
End Construction.

(* ================================================================== *)
(** * The image resizer *)

Section ResizerProperties.
Variable skia : Skia.Library.

Lemma scaledBitmap_dimensions (sourceBitmap scaled : Skia.SKBitmap)
    (maxWidth maxHeight : Z) :
  scaledBitmap skia sourceBitmap maxWidth maxHeight = Some scaled ->
  Skia.Width (Skia.Info scaled) =
    Z.min maxWidth (Skia.Width (Skia.Info sourceBitmap)) /\
  Skia.Height (Skia.Info scaled) =
    Z.min maxHeight (Skia.Height (Skia.Info sourceBitmap)).
Proof.
  unfold scaledBitmap, Skia.Resize.
  destruct (Skia.IsEmpty _); [discriminate|].
  destruct (Skia.ScalePixels _ _ _ _); [|discriminate].
  intros [= <-]. split; reflexivity.
Qed.

(** C10. The image that [Resize] encodes has the width
    min(maxWidth, source width) and the height min(maxHeight, source
    height), so it is no larger than the source and than the requested
    maximum in either dimension; this holds for [ResizeAsync] with the
    bytes of the stream and the dimensions of [maxSize].  An image is
    produced when these dimensions are positive and the library scales
    and encodes. *)
Theorem resize_never_upscales (fileContents : list byte)
    (sourceBitmap : Skia.SKBitmap) (maxWidth maxHeight : Z) :
  Skia.Decode skia fileContents = Some sourceBitmap ->
  let width := Z.min maxWidth (Skia.Width (Skia.Info sourceBitmap)) in
  let height := Z.min maxHeight (Skia.Height (Skia.Info sourceBitmap)) in
  (forall data, Resize skia fileContents maxWidth maxHeight = Returned data ->
     exists scaledImage,
       Skia.Encode skia scaledImage = Some data /\
       Skia.Width (Skia.ImageInfo scaledImage) = width /\
       Skia.Height (Skia.ImageInfo scaledImage) = height /\
       (width <= Skia.Width (Skia.Info sourceBitmap))%Z /\
       (width <= maxWidth)%Z /\
       (height <= Skia.Height (Skia.Info sourceBitmap))%Z /\
       (height <= maxHeight)%Z) /\
  (forall pixels data,
     (0 < width)%Z -> (0 < height)%Z ->
     Skia.ScalePixels skia sourceBitmap
       {| Skia.Width := width; Skia.Height := height |} Skia.Medium
       = Some pixels ->
     Skia.Encode skia
       {| Skia.ImageInfo := {| Skia.Width := width; Skia.Height := height |};
          Skia.ImagePixels := pixels |} = Some data ->
     Resize skia fileContents maxWidth maxHeight = Returned data) /\
  (forall stream maxSize,
     skipn (Position stream) (Buffer stream) = fileContents ->
     maxSize = {| Size_Width := maxWidth; Size_Height := maxHeight |} ->
     fst (ResizeAsync skia stream maxSize) =
       bindO (Resize skia fileContents maxWidth maxHeight)
         (fun data => Returned (MemoryStream data))).
Proof.
  intros Hd width height. split; [|split].
  - intros data. unfold Resize. rewrite Hd.
    destruct (scaledBitmap skia sourceBitmap maxWidth maxHeight)
      as [scaled|] eqn:Hs; [|discriminate].
    destruct (Skia.Encode skia (Skia.FromBitmap scaled)) as [d|] eqn:He;
      [|discriminate].
    intros [= <-]. exists (Skia.FromBitmap scaled).
    apply scaledBitmap_dimensions in Hs as [Hw Hh].
    split; [exact He|]. cbn [Skia.FromBitmap Skia.ImageInfo].
    split; [exact Hw|]. split; [exact Hh|].
    unfold width, height. lia.
  - intros pixels data Hw Hh Hp He. unfold Resize. rewrite Hd.
    unfold scaledBitmap, Skia.Resize, Skia.IsEmpty.
    cbn [Skia.Width Skia.Height]. fold width. fold height.
    destruct (Z.leb_spec width 0); [lia|].
    destruct (Z.leb_spec height 0); [lia|].
    cbn [orb]. rewrite Hp. unfold Skia.FromBitmap.
    cbn [Skia.Info Skia.Pixels]. now rewrite He.
  - intros stream maxSize Hbytes ->. unfold ResizeAsync, CopyToArray.
    cbn [fst Size_Width Size_Height]. now rewrite Hbytes.
Qed.
End ResizerProperties.

(* ================================================================== *)
(** * The payload on the wire *)

Section PayloadOnTheWire.
Variable rt : Runtime.
Variable this : AppSyncOperations.
Variables query operationName : text.
Variable variables : list (text * JToken).
Variable h : History.

Local Notation "'run'" := (RunGraphql rt this query operationName variables h).
Local Notation "'message' c" := (messageOf rt this query operationName variables c h)
  (at level 10).

Lemma body_is_encoded_payload (credentials : Aws.ImmutableCredentials) :
  Http.Bytes (Http.Content (message credentials)) =
  ASCII.GetBytes (jsonPayload query operationName variables).
Proof.
  unfold messageOf.
  destruct (addSignerHeaders_frame rt
              (Aws.Headers (signedOf rt this query operationName variables credentials h))
              (draftOf this query operationName variables credentials))
    as (_ & _ & ->).
  reflexivity.
Qed.

(** C5, as the code has it.  The variables are JSON values as the
    serializer writes the objects of the mapping: null, booleans, integers,
    other numbers by their decimal text, strings, sequences and objects.
    When the query, the operation name and the strings of the variables
    (the names of properties included) have ASCII characters only, and no
    number of the variables is NaN or an infinity, the body on the wire is
    the JSON text of {query, operationName, variables}, and a JSON reader
    gives these values back from it. *)
Theorem ascii_payload_round_trips (credentials : Aws.ImmutableCredentials) :
  credentialChain rt h = Some credentials ->
  ASCII.is_ascii query = true ->
  ASCII.is_ascii operationName = true ->
  forallb (fun kx => ASCII.is_ascii (fst kx) && Json.ascii_token (snd kx))
    variables = true ->
  forallb (fun kx => Json.finite_token (snd kx)) variables = true ->
  network_calls (snd run) = network_calls h ++ [message credentials] /\
  ASCII.GetString (Http.Bytes (Http.Content (message credentials))) =
    jsonPayload query operationName variables /\
  Json.Parse (ASCII.GetString (Http.Bytes (Http.Content (message credentials)))) =
    Some (payload query operationName variables).
Proof.
  intros Hc Hq Ho Hv Hn.
  split; [apply (RunGraphql_calls rt this query operationName variables h Hc)|].
  assert (E : ASCII.GetString (Http.Bytes (Http.Content (message credentials))) =
              jsonPayload query operationName variables).
  { rewrite body_is_encoded_payload.
    apply ASCIIFacts.GetString_GetBytes.
    apply JsonFacts.is_ascii_WriteToken.
    cbn [Json.ascii_token payload forallb fst snd].
    rewrite Hq, Ho, Hv. reflexivity. }
  split; [exact E|].
  rewrite E. apply JsonFacts.Parse_WriteToken.
  cbn [Json.finite_token payload forallb fst snd].
  rewrite Hn. reflexivity.
Qed.
End PayloadOnTheWire.

(** C5 as stated fails: the body of a query with a character outside of
    ASCII does not read back as that query. *)
Lemma non_ascii_payload_does_not_round_trip :
  ~ (forall rt this query operationName variables h credentials,
       credentialChain rt h = Some credentials ->
       Json.Parse
         (ASCII.GetString
            (Http.Bytes
               (Http.Content
                  (messageOf rt this query operationName variables credentials h)))) =
       Some (payload query operationName variables)).
Proof.
  intros H.
  specialize (H Sample.healthy Sample.dispatcher Sample.accented Sample.Ping []
                [] Sample.credentials eq_refl).
  vm_compute in H. discriminate H.
Qed.

(** What is read back there is the query with a question mark, and the two
    queries have the same bytes on the wire: no reader tells them apart. *)
Example accented_query_on_the_wire :
  Json.Parse
    (ASCII.GetString
       (Http.Bytes
          (Http.Content
             (messageOf Sample.healthy Sample.dispatcher Sample.accented
                Sample.Ping [] Sample.credentials [])))) =
    Some (payload Sample.questioned Sample.Ping []) /\
  Http.Bytes
    (Http.Content
       (messageOf Sample.healthy Sample.dispatcher Sample.accented
          Sample.Ping [] Sample.credentials [])) =
  Http.Bytes
    (Http.Content
       (messageOf Sample.healthy Sample.dispatcher Sample.questioned
          Sample.Ping [] Sample.credentials [])).
Proof. split; vm_compute; reflexivity. Qed.

(** The serializer writes a number that is NaN as the string "NaN", and
    the reader gives back that string: such a variable does not read back
    as the number. *)
Example nan_variable_on_the_wire :
  Json.Parse
    (ASCII.GetString
       (Http.Bytes
          (Http.Content
             (messageOf Sample.healthy Sample.dispatcher Sample.ping
                Sample.Ping [(txt "x", JFloat NaN)] Sample.credentials [])))) =
    Some (payload Sample.ping Sample.Ping [(txt "x", JString (txt "NaN"))]).
Proof. vm_compute; reflexivity. Qed.

(* ================================================================== *)
(** * The theorems at the sample collaborators *)

(** The call of the specification's third property: one POST to the
    endpoint, with an authorization header and the token [T]. *)
Example ping_call :
  fst (RunGraphql Sample.healthy Sample.dispatcher Sample.ping Sample.Ping [] [])
    = Returned tt /\
  List.map (fun m => (Http.Method m, AbsoluteUri (Http.RequestUri m)))
    (network_calls
       (snd (RunGraphql Sample.healthy Sample.dispatcher Sample.ping Sample.Ping [] [])))
    = [(txt "POST", txt "https://example.com/graphql")] /\
  List.map (fun m => Http.TryGetValues (txt "x-amz-security-token") (Http.Headers m))
    (network_calls
       (snd (RunGraphql Sample.healthy Sample.dispatcher Sample.ping Sample.Ping [] [])))
    = [Some [txt "T"]] /\
  List.map (fun m => Http.TryGetValues (txt "Host") (Http.Headers m))
    (network_calls
       (snd (RunGraphql Sample.healthy Sample.dispatcher Sample.ping Sample.Ping [] [])))
    = [Some [txt "example.com"]] /\
  List.map (fun m => Http.TryGetValues (txt "authorization") (Http.Headers m))
    (network_calls
       (snd (RunGraphql Sample.healthy Sample.dispatcher Sample.ping Sample.Ping [] [])))
    = [Some [txt "AWS4-HMAC-SHA256 Credential=A"]].
Proof. repeat split; vm_compute; reflexivity. Qed.

(** C1 with a signer that sets host, token and content headers to values
    of its own: the outgoing request has the endpoint's host and the
    credentials' token, and the date header of the signature. *)
Lemma merge_protects_and_copies_witness :
  credentialChain Sample.healthy [] = Some Sample.credentials /\
  Http.TryGetValues Aws.HeaderKeys.HostHeader
    (Http.Headers
       (messageOf Sample.healthy Sample.dispatcher Sample.ping Sample.Ping []
          Sample.credentials [])) =
    Some [txt "example.com"] /\
  Http.TryGetValues Aws.HeaderKeys.XAmzSecurityTokenHeader
    (Http.Headers
       (messageOf Sample.healthy Sample.dispatcher Sample.ping Sample.Ping []
          Sample.credentials [])) =
    Some [txt "T"] /\
  has_header (txt "X-Amz-Date") (txt "20240101T000000Z")
    (Http.Headers
       (messageOf Sample.healthy Sample.dispatcher Sample.ping Sample.Ping []
          Sample.credentials [])).
Proof.
  split; [reflexivity|].
  destruct (@merge_protects_and_copies Sample.healthy Sample.dispatcher
              Sample.ping Sample.Ping [] [] Sample.credentials eq_refl)
    as (_ & _ & _ & Hhost & Htoken & _ & Hcopy).
  split; [exact Hhost|]. split; [exact Htoken|].
  apply Hcopy.
  - vm_compute. tauto.
  - intros P. apply copied_false_iff in P. vm_compute in P. discriminate P.
  - reflexivity.
Defined.

(** C2 for a query with a character outside of ASCII. *)
Lemma signed_bytes_are_sent_bytes_witness :
  credentialChain Sample.healthy [] = Some Sample.credentials /\
  Aws.Content (requestOf Sample.dispatcher Sample.accented Sample.Ping []
                 Sample.credentials) =
  Http.Bytes
    (Http.Content
       (messageOf Sample.healthy Sample.dispatcher Sample.accented Sample.Ping []
          Sample.credentials [])).
Proof.
  split; [reflexivity|].
  exact (proj1 (proj2 (proj2
           (@signed_bytes_are_sent_bytes Sample.healthy Sample.dispatcher
              Sample.accented Sample.Ping [] [] Sample.credentials eq_refl)))).
Defined.

(** C3 for the response 403 Forbidden. *)
Lemma status_decides_outcome_witness :
  credentialChain Sample.refusing [] = Some Sample.credentials /\
  server Sample.refusing
    (historyOf Sample.dispatcher Sample.ping Sample.Ping [] Sample.credentials [])
    (messageOf Sample.refusing Sample.dispatcher Sample.ping Sample.Ping []
       Sample.credentials []) = Some Sample.forbidden /\
  fst (RunGraphql Sample.refusing Sample.dispatcher Sample.ping Sample.Ping [] []) =
    Thrown (HttpRequestException
              (txt "Response status code does not indicate success: 403 (Forbidden).")
              (Some 403%Z)).
Proof.
  split; [reflexivity|]. split; [reflexivity|].
  apply (proj2 (proj2
           (@status_decides_outcome Sample.refusing Sample.dispatcher
              Sample.ping Sample.Ping [] [] Sample.credentials Sample.forbidden
              eq_refl eq_refl))).
  cbn. lia.
Defined.

(** C4 for a chain without credentials. *)
Lemma no_credentials_no_network_call_witness :
  credentialChain Sample.anonymous [] = None /\
  fst (RunGraphql Sample.anonymous Sample.dispatcher Sample.ping Sample.Ping [] []) =
    Thrown (AmazonServiceException (txt "Unable to find credentials")) /\
  network_calls
    (snd (RunGraphql Sample.anonymous Sample.dispatcher Sample.ping Sample.Ping [] []))
    = [].
Proof.
  split; [reflexivity|].
  destruct (@no_credentials_no_network_call Sample.anonymous Sample.dispatcher
              Sample.ping Sample.Ping [] [] eq_refl) as (A & B & _).
  split; [exact A|exact B].
Defined.

(** C7 for a dispatcher of the region us-east-1. *)
Lemma signature_scope_witness :
  credentialChain Sample.healthy [] = Some Sample.credentials /\
  signatures
    (snd (RunGraphql Sample.healthy Sample.dispatcher Sample.ping Sample.Ping [] []))
    = [(requestOf Sample.dispatcher Sample.ping Sample.Ping [] Sample.credentials,
        Aws.AmazonAppSyncConfig, Sample.credentials)] /\
  Aws.ServiceName
    (requestOf Sample.dispatcher Sample.ping Sample.Ping [] Sample.credentials)
    = txt "appsync" /\
  Aws.AlternateEndpoint
    (requestOf Sample.dispatcher Sample.ping Sample.Ping [] Sample.credentials)
    = Some {| Aws.SystemName := txt "us-east-1" |}.
Proof.
  split; [reflexivity|].
  destruct (@signature_scope Sample.healthy Sample.dispatcher
              Sample.ping Sample.Ping [] [] Sample.credentials eq_refl)
    as (A & B & C & _).
  split; [exact A|]. split; [exact B|exact C].
Defined.

(** C5 for variables with an integer, a sequence and the numbers 0.5 and
    -1.5E-05. *)
Lemma ascii_payload_round_trips_witness :
  credentialChain Sample.healthy [] = Some Sample.credentials /\
  ASCII.is_ascii Sample.ping = true /\
  ASCII.is_ascii Sample.Ping = true /\
  forallb (fun kx => ASCII.is_ascii (fst kx) && Json.ascii_token (snd kx))
    Sample.variables = true /\
  forallb (fun kx => Json.finite_token (snd kx)) Sample.variables = true /\
  Json.Parse
    (ASCII.GetString
       (Http.Bytes
          (Http.Content
             (messageOf Sample.healthy Sample.dispatcher Sample.ping Sample.Ping
                Sample.variables Sample.credentials [])))) =
    Some (payload Sample.ping Sample.Ping Sample.variables).
Proof.
  split; [reflexivity|]. split; [reflexivity|]. split; [reflexivity|].
  split; [reflexivity|]. split; [reflexivity|].
  exact (proj2 (proj2
           (@ascii_payload_round_trips Sample.healthy Sample.dispatcher
              Sample.ping Sample.Ping Sample.variables
              [] Sample.credentials eq_refl eq_refl eq_refl eq_refl eq_refl))).
Defined.

(** C6 for an endpoint without a scheme, and for a blank region argument
    in a process without [AWS_REGION]. *)
Lemma constructor_fails_fast_witness :
  uriParser Sample.runtime_without_region (txt "example.com/graphql") = None /\
  AppSyncOperations_new Sample.runtime_without_region
    (Some (txt "example.com/graphql")) (Some (txt "us-east-1")) =
    Thrown UriFormatException /\
  IsNullOrWhiteSpace (Some (txt "  ")) = true /\
  environment Sample.runtime_without_region (txt "AWS_REGION") = None /\
  exists e,
    AppSyncOperations_new Sample.runtime_without_region
      (Some Sample.endpointText) (Some (txt "  ")) = Thrown e.
Proof.
  split; [reflexivity|].
  split; [exact (proj1 (constructor_fails_fast Sample.runtime_without_region
                          (Some (txt "example.com/graphql")) (Some (txt "us-east-1")))
                   (txt "example.com/graphql") eq_refl eq_refl)|].
  split; [reflexivity|]. split; [reflexivity|].
  exact (proj1 (proj2 (constructor_fails_fast Sample.runtime_without_region
                         (Some Sample.endpointText) (Some (txt "  "))))
           eq_refl eq_refl).
Defined.

(** C8 in a process whose [AWS_REGION] is eu-west-1, with the argument
    us-east-1 and without an argument. *)
Lemma region_resolution_witness :
  uriParser Sample.healthy Sample.endpointText = Some Sample.endpoint /\
  AppSyncOperations_new Sample.healthy (Some Sample.endpointText)
    (Some (txt "us-east-1")) =
    Returned {| _graphQlEndpoint := Sample.endpoint;
                _awsRegion := {| Aws.SystemName := txt "us-east-1" |} |} /\
  AppSyncOperations_new Sample.healthy (Some Sample.endpointText) None =
    Returned {| _graphQlEndpoint := Sample.endpoint;
                _awsRegion := {| Aws.SystemName := txt "eu-west-1" |} |}.
Proof.
  split; [reflexivity|]. split.
  - exact (proj1 (@region_resolution Sample.healthy Sample.endpointText
                    Sample.endpoint (Some (txt "us-east-1")) eq_refl)
             (txt "us-east-1") eq_refl eq_refl).
  - exact (proj2 (@region_resolution Sample.healthy Sample.endpointText
                    Sample.endpoint None eq_refl)
             (txt "eu-west-1") eq_refl eq_refl).
Defined.

(** C9 for two calls in a row: while the credentials are rotated, the
    second request has the new token; when the credentials are lost after
    the first call, the second call fails; and with collaborators that
    answer the same at any moment, a call does the same after a failed
    call as at the start. *)
Lemma calls_keep_no_state_witness :
  Http.TryGetValues Aws.HeaderKeys.XAmzSecurityTokenHeader
    (Http.Headers
       (messageOf (Sample.runtime Sample.rotating (Some Sample.ok))
          Sample.dispatcher Sample.ping Sample.Ping [] Sample.rotated
          (snd (RunGraphql (Sample.runtime Sample.rotating (Some Sample.ok))
                  Sample.dispatcher Sample.ping Sample.Ping [] [])))) =
    Some [txt "T2"] /\
  fst (RunGraphql (Sample.runtime Sample.expiring (Some Sample.ok))
         Sample.dispatcher Sample.ping Sample.Ping []
         (snd (RunGraphql (Sample.runtime Sample.expiring (Some Sample.ok))
                 Sample.dispatcher Sample.ping Sample.Ping [] []))) =
    Thrown (AmazonServiceException (txt "Unable to find credentials")) /\
  fst (RunGraphql Sample.healthy Sample.dispatcher Sample.ping Sample.Ping []
         [CredentialsRequested None]) =
  fst (RunGraphql Sample.healthy Sample.dispatcher Sample.ping Sample.Ping [] []).
Proof.
  split; [|split];
    [| |exact (proj1 (proj2 (proj2 (proj2
                 (calls_keep_no_state Sample.healthy Sample.dispatcher
                    Sample.ping Sample.Ping [] [])))
                 (fun _ _ => eq_refl) (fun _ _ _ _ _ => eq_refl)
                 (fun _ _ _ => eq_refl) [CredentialsRequested None]))].
  - destruct (calls_keep_no_state (Sample.runtime Sample.rotating (Some Sample.ok))
                Sample.dispatcher Sample.ping Sample.Ping [] [])
      as (_ & _ & Next & _).
    destruct (Next Sample.ping Sample.Ping []) as [Resolved _].
    exact (proj1 (proj2 (proj2 (Resolved Sample.rotated eq_refl)))).
  - destruct (calls_keep_no_state (Sample.runtime Sample.expiring (Some Sample.ok))
                Sample.dispatcher Sample.ping Sample.Ping [] [])
      as (_ & _ & Next & _).
    destruct (Next Sample.ping Sample.Ping []) as [_ Lost].
    exact (proj1 (Lost eq_refl)).
Defined.

(** C10 for an image of 4 by 2 and the maximum 3 by 5: the result is 3
    by 2. *)
Lemma resize_never_upscales_witness :
  Skia.Decode Sample.skia Sample.picture =
    Some {| Skia.Info := {| Skia.Width := 4; Skia.Height := 2 |};
            Skia.Pixels := [x01; x02; x03; x04; x05; x06; x07; x08] |} /\
  Resize Sample.skia Sample.picture 3 5 =
    Returned [x03; x02; x00; x00; x00; x00; x00; x00].
Proof.
  split; [reflexivity|].
  refine (proj1 (proj2
            (@resize_never_upscales Sample.skia Sample.picture
               {| Skia.Info := {| Skia.Width := 4; Skia.Height := 2 |};
                  Skia.Pixels := [x01; x02; x03; x04; x05; x06; x07; x08] |}
               3 5 eq_refl))
            [x00; x00; x00; x00; x00; x00]
            [x03; x02; x00; x00; x00; x00; x00; x00] _ _ eq_refl eq_refl);
    reflexivity.
Defined.

(* ================================================================== *)
(** * More on the dispatcher *)

Lemma TryGetValues_app (name : text) (a b : Http.HttpHeaders) :
  Http.TryGetValues name (a ++ b) =
  match Http.TryGetValues name a with
  | Some vs => Some vs
  | None => Http.TryGetValues name b
  end.
Proof.
  induction a as [|[k vs] a IH]; [reflexivity|]. cbn [app Http.TryGetValues].
  destruct (EqualsIgnoreCase k name); [reflexivity|exact IH].
Qed.

Lemma Dictionary_TryGetValue_set_Item (key value name : text) (d : Aws.Dictionary) :
  Dictionary_TryGetValue name (Aws.set_Item key value d) =
  if EqualsIgnoreCase key name then Some value else Dictionary_TryGetValue name d.
Proof.
  induction d as [|[k v] d IH]; cbn [Aws.set_Item Dictionary_TryGetValue].
  - destruct (EqualsIgnoreCase key name); reflexivity.
  - destruct (EqualsIgnoreCase k key) eqn:E; cbn [Dictionary_TryGetValue].
    + rewrite (EqualsIgnoreCase_congr _ _ name E).
      destruct (EqualsIgnoreCase key name); reflexivity.
    + rewrite IH. destruct (EqualsIgnoreCase k name) eqn:F; trivial.
      rewrite (EqualsIgnoreCase_congr _ _ key F), EqualsIgnoreCase_sym in E.
      now rewrite E.
Qed.

Lemma copy_headers_lookup (l : list (text * list text)) (r : Aws.DefaultRequest)
    (name : text) :
  Dictionary_TryGetValue name
    (Aws.Headers
       (fold_left
          (fun r header =>
             Aws.with_Headers r
               (Aws.set_Item (fst header) (Join (txt ", ") (snd header))
                  (Aws.Headers r))) l r)) =
  match Http.TryGetValues name (rev l) with
  | Some vs => Some (Join (txt ", ") vs)
  | None => Dictionary_TryGetValue name (Aws.Headers r)
  end.
Proof.
  revert r. induction l as [|[k vs] l IH]; intros r; [reflexivity|].
  cbn [fold_left rev fst snd]. rewrite IH, TryGetValues_app.
  destruct (Http.TryGetValues name (rev l)); [reflexivity|].
  cbn [Aws.with_Headers Aws.Headers Http.TryGetValues].
  rewrite Dictionary_TryGetValue_set_Item.
  destruct (EqualsIgnoreCase k name); reflexivity.
Qed.

Section MoreOnTheDispatcher.
Variable rt : Runtime.
Variable this : AppSyncOperations.
Variables query operationName : text.
Variable variables : list (text * JToken).
Variable h : History.

Local Notation "'run'" := (RunGraphql rt this query operationName variables h).
Local Notation "'request' c" := (requestOf this query operationName variables c)
  (at level 10).
Local Notation "'message' c" := (messageOf rt this query operationName variables c h)
  (at level 10).

(** X1. When the exchange fails before a response arrives, the call
    throws the exception of [SendAsync], which has no status code; the
    request went out once and is not sent again. *)
Theorem transport_failure_surfaces (credentials : Aws.ImmutableCredentials) :
  credentialChain rt h = Some credentials ->
  server rt (historyOf this query operationName variables credentials h)
    (message credentials) = None ->
  fst run =
    Thrown (HttpRequestException
              (txt "An error occurred while sending the request.") None) /\
  network_calls (snd run) = network_calls h ++ [message credentials].
Proof.
  intros Hc Hs.
  split; [|apply (RunGraphql_calls rt this query operationName variables h Hc)].
  rewrite (RunGraphql_resolved rt this query operationName variables h Hc).
  cbv zeta. now rewrite Hs.
Qed.

(** X2. The loop that fills the signer's request copies every header the
    HTTP request has when the loop runs, request headers and content
    headers alike, whatever they are: under each name (compared without
    case) the signer's request has the values the HTTP request has for it,
    joined by a comma and a space, the later of two entries of one name
    winning, and it has no header under another name.  The signer's
    request is for the service appsync, with the method POST, the
    dispatcher's endpoint and region, and the bytes it was given. *)
Theorem signer_is_given_the_headers
    (m : Http.HttpRequestMessage) (content : list byte) :
  (forall name : text,
     Dictionary_TryGetValue name (Aws.Headers (awsRequest this m content)) =
     option_map (Join (txt ", "))
       (Http.TryGetValues name
          (rev (Http.Headers m ++ Http.ContentHeaders (Http.Content m))))) /\
  Aws.ServiceName (awsRequest this m content) = txt "appsync" /\
  Aws.HttpMethod (awsRequest this m content) = txt "POST" /\
  Aws.Endpoint (awsRequest this m content) = _graphQlEndpoint this /\
  Aws.AlternateEndpoint (awsRequest this m content) = Some (_awsRegion this) /\
  Aws.Content (awsRequest this m content) = content.
Proof.
  split.
  - intros name. unfold awsRequest. rewrite copy_headers_lookup.
    destruct (Http.TryGetValues name _); reflexivity.
  - destruct (awsRequest_fields this m content) as (A & B & C & D & E).
    rewrite A, B, C, D, E. repeat split.
Qed.

(** X3. The body that is sent has one byte below 128 for each UTF-16 code
    unit of the JSON text: its length is the length of the text, whatever
    the characters are. *)
Theorem body_is_ascii (credentials : Aws.ImmutableCredentials) :
  Forall (fun b => (Byte.to_N b < 128)%N)
    (Http.Bytes (Http.Content (message credentials))) /\
  List.length (Http.Bytes (Http.Content (message credentials))) =
    List.length (jsonPayload query operationName variables).
Proof.
  rewrite body_is_encoded_payload. unfold ASCII.GetBytes. split.
  - apply Forall_forall. intros b Hb. apply in_map_iff in Hb as (c & <- & _).
    rewrite ASCIIFacts.to_N_encode. apply ASCIIFacts.narrow_lt.
  - apply length_map.
Qed.
End MoreOnTheDispatcher.

(** ** Characters outside of ASCII *)

Lemma sent_as_question_plain (c : char) :
  sent_as_question c = true -> Json.escape_char c = [c] /\ ASCII.narrow c = ASCII.question.
Proof.
  unfold sent_as_question. intros H. apply andb_prop in H as [Hc Hn].
  apply N.leb_le in Hc. apply negb_true_iff in Hn.
  split.
  - unfold Json.escape_char. rewrite Hn.
    assert (Hs : Json.short_escape c = None).
    { unfold Json.short_escape.
      repeat match goal with
             | |- context [(c =? ?k)%N] => destruct (N.eqb_spec c k); [lia|]
             end.
      reflexivity. }
    now rewrite Hs.
  - unfold ASCII.narrow. destruct (N.ltb_spec c 128); [lia|reflexivity].
Qed.

Lemma encode_escape_char (c : char) :
  ASCII.GetBytes (Json.escape_char c) =
  ASCII.GetBytes
    (Json.escape_char (if sent_as_question c then ASCII.question else c)).
Proof.
  destruct (sent_as_question c) eqn:H; [|reflexivity].
  destruct (sent_as_question_plain c H) as [-> Hn].
  cbn. unfold ASCII.encode. now rewrite Hn.
Qed.

Lemma GetBytes_app (a b : text) :
  ASCII.GetBytes (a ++ b) = ASCII.GetBytes a ++ ASCII.GetBytes b.
Proof. apply map_app. Qed.

Lemma GetBytes_WriteString (s : text) :
  ASCII.GetBytes (Json.WriteString s) =
  ASCII.GetBytes (Json.WriteString (on_the_wire s)).
Proof.
  unfold Json.WriteString.
  change (Json.quote :: flat_map Json.escape_char s ++ [Json.quote])
    with ([Json.quote] ++ flat_map Json.escape_char s ++ [Json.quote]).
  change (Json.quote :: flat_map Json.escape_char (on_the_wire s) ++ [Json.quote])
    with ([Json.quote] ++ flat_map Json.escape_char (on_the_wire s) ++ [Json.quote]).
  rewrite !GetBytes_app. f_equal. f_equal.
  induction s as [|c s IH]; [reflexivity|].
  cbn [on_the_wire List.map flat_map]. fold (on_the_wire s).
  now rewrite !GetBytes_app, IH, encode_escape_char.
Qed.

Lemma jsonPayload_parts (query operationName : text)
    (variables : list (text * JToken)) :
  jsonPayload query operationName variables =
  (123%N :: Json.WriteString (txt "query") ++ [Json.colon]) ++
  Json.WriteString query ++
  (Json.comma :: Json.WriteString (txt "operationName") ++ [Json.colon]) ++
  Json.WriteString operationName ++
  (Json.comma :: Json.WriteString (txt "variables") ++ [Json.colon]) ++
  Json.WriteToken (JObject variables) ++ [125%N].
Proof.
  unfold jsonPayload, payload. rewrite JsonFacts.WriteToken_JObject.
  cbn [Json.write_properties app]. f_equal.
Qed.

Lemma on_the_wire_changes (s : text) :
  existsb sent_as_question s = true -> on_the_wire s <> s.
Proof.
  induction s as [|c s IH]; [discriminate|]. cbn [existsb on_the_wire List.map].
  fold (on_the_wire s). intros H E. injection E as Ec Es.
  destruct (sent_as_question c) eqn:Hc.
  - unfold sent_as_question in Hc. apply andb_prop in Hc as [Hc _].
    apply N.leb_le in Hc. unfold ASCII.question in Ec. lia.
  - now apply IH.
Qed.

(** X4. A character of the query or of the operation name that is neither
    ASCII nor written as an escape (U+0085, U+2028 and U+2029 are) is sent
    as a question mark: the body is, byte for byte, the body of the call
    with question marks in the place of these characters, which is another
    query when there is one of them. *)
Theorem non_ascii_is_sent_as_question (rt : Runtime) (this : AppSyncOperations)
    (query operationName : text) (variables : list (text * JToken))
    (credentials : Aws.ImmutableCredentials) (h : History) :
  Http.Bytes
    (Http.Content (messageOf rt this query operationName variables credentials h)) =
  Http.Bytes
    (Http.Content
       (messageOf rt this (on_the_wire query) (on_the_wire operationName)
          variables credentials h)) /\
  (existsb sent_as_question query = true -> on_the_wire query <> query).
Proof.
  split; [|apply on_the_wire_changes].
  rewrite !body_is_encoded_payload, !jsonPayload_parts, !GetBytes_app.
  now rewrite (GetBytes_WriteString query), (GetBytes_WriteString operationName).
Qed.

(** ** The constructor *)

(** X5. The constructor gives a dispatcher exactly when the endpoint is a
    well-formed URI and a region name is at hand, from an argument that
    is not blank or from [AWS_REGION]; the name itself is not checked. *)
Theorem construction_succeeds_iff (rt : Runtime)
    (graphQlEndpoint awsRegion : option text) :
  (exists this, AppSyncOperations_new rt graphQlEndpoint awsRegion = Returned this)
  <->
  (exists s endpoint, graphQlEndpoint = Some s /\ uriParser rt s = Some endpoint) /\
  (IsNullOrWhiteSpace awsRegion = false \/
   exists name, environment rt (txt "AWS_REGION") = Some name).
Proof.
  unfold AppSyncOperations_new, new_Uri, GetBySystemName. split.
  - intros [this H].
    destruct graphQlEndpoint as [s|]; [|discriminate].
    destruct (uriParser rt s) as [endpoint|] eqn:Hu; [|discriminate].
    split; [eauto|]. cbn [bindO] in H.
    destruct (IsNullOrWhiteSpace awsRegion); [|now left].
    destruct (environment rt (txt "AWS_REGION")) as [name|]; [|discriminate].
    right. eauto.
  - intros [(s & endpoint & -> & Hu) Hr]. rewrite Hu. cbn [bindO].
    destruct (IsNullOrWhiteSpace awsRegion) eqn:Hb.
    + destruct Hr as [|[name ->]]; [discriminate|]. cbn. eauto.
    + destruct awsRegion as [name|]; [|discriminate]. cbn. eauto.
Qed.

(* ================================================================== *)
(** * More on the image resizer *)

Section MoreOnTheResizer.
Variable skia : Skia.Library.

(** X6. [Resize] returns exactly when the data decodes, the smaller of
    maximum and source is positive in both dimensions, and the library
    scales and encodes; what it returns is the encoding of the scaled
    pixels in these dimensions. *)
Theorem resize_returns_iff (fileContents : list byte) (maxWidth maxHeight : Z)
    (data : list byte) :
  Resize skia fileContents maxWidth maxHeight = Returned data <->
  exists sourceBitmap pixels,
    Skia.Decode skia fileContents = Some sourceBitmap /\
    (0 < Z.min maxWidth (Skia.Width (Skia.Info sourceBitmap)))%Z /\
    (0 < Z.min maxHeight (Skia.Height (Skia.Info sourceBitmap)))%Z /\
    Skia.ScalePixels skia sourceBitmap
      {| Skia.Width := Z.min maxWidth (Skia.Width (Skia.Info sourceBitmap));
         Skia.Height := Z.min maxHeight (Skia.Height (Skia.Info sourceBitmap)) |}
      Skia.Medium = Some pixels /\
    Skia.Encode skia
      {| Skia.ImageInfo :=
           {| Skia.Width := Z.min maxWidth (Skia.Width (Skia.Info sourceBitmap));
              Skia.Height := Z.min maxHeight (Skia.Height (Skia.Info sourceBitmap)) |};
         Skia.ImagePixels := pixels |} = Some data.
Proof.
  unfold Resize, scaledBitmap, Skia.Resize, Skia.IsEmpty, Skia.FromBitmap.
  cbn [Skia.Width Skia.Height]. split.
  - destruct (Skia.Decode skia fileContents) as [sourceBitmap|]; [|discriminate].
    destruct (Z.leb_spec (Z.min maxWidth (Skia.Width (Skia.Info sourceBitmap))) 0);
      [discriminate|].
    destruct (Z.leb_spec (Z.min maxHeight (Skia.Height (Skia.Info sourceBitmap))) 0);
      [discriminate|].
    cbn [orb].
    destruct (Skia.ScalePixels skia sourceBitmap _ Skia.Medium) as [pixels|] eqn:Hp;
      [|discriminate].
    cbn [Skia.Info Skia.Pixels].
    destruct (Skia.Encode skia _) as [d|] eqn:He; [|discriminate].
    intros [= <-]. exists sourceBitmap, pixels. auto.
  - intros (sourceBitmap & pixels & -> & Hw & Hh & Hp & He).
    destruct (Z.leb_spec (Z.min maxWidth (Skia.Width (Skia.Info sourceBitmap))) 0);
      [lia|].
    destruct (Z.leb_spec (Z.min maxHeight (Skia.Height (Skia.Info sourceBitmap))) 0);
      [lia|].
    cbn [orb]. rewrite Hp. cbn [Skia.Info Skia.Pixels]. now rewrite He.
Qed.

(** X7. Data that is no image makes [Resize] throw a
    [NullReferenceException]; for data that decodes, a maximum or a source
    dimension of zero or less makes it throw an [ArgumentNullException]
    for the bitmap, whatever the scaler of the library would give. *)
Theorem resize_failures (fileContents : list byte) (maxWidth maxHeight : Z) :
  (Skia.Decode skia fileContents = None ->
   Resize skia fileContents maxWidth maxHeight = Thrown NullReferenceException) /\
  (forall sourceBitmap,
     Skia.Decode skia fileContents = Some sourceBitmap ->
     (maxWidth <= 0 \/ maxHeight <= 0 \/
      Skia.Width (Skia.Info sourceBitmap) <= 0 \/
      Skia.Height (Skia.Info sourceBitmap) <= 0)%Z ->
     scaledBitmap skia sourceBitmap maxWidth maxHeight = None /\
     Resize skia fileContents maxWidth maxHeight =
       Thrown (ArgumentNullException (txt "bitmap"))).
Proof.
  split.
  - intros Hd. unfold Resize. now rewrite Hd.
  - intros sourceBitmap Hd Hz.
    assert (E : scaledBitmap skia sourceBitmap maxWidth maxHeight = None).
    { unfold scaledBitmap, Skia.Resize, Skia.IsEmpty. cbn [Skia.Width Skia.Height].
      destruct (Z.leb_spec (Z.min maxWidth (Skia.Width (Skia.Info sourceBitmap))) 0);
        [reflexivity|].
      destruct (Z.leb_spec (Z.min maxHeight (Skia.Height (Skia.Info sourceBitmap))) 0);
        [reflexivity|]. lia. }
    split; [exact E|]. unfold Resize. now rewrite Hd, E.
Qed.

(** X8. [ResizeAsync] resizes the bytes from the position of the stream to
    its end, those before the position playing no part, and leaves the
    stream at its end: called again on the same stream it hands the empty
    data to [Resize].  The stream it returns is at position 0. *)
Theorem resize_async_consumes_the_stream (stream : Stream) (maxSize : Size) :
  fst (ResizeAsync skia stream maxSize) =
    fst (ResizeAsync skia
           (MemoryStream (skipn (Position stream) (Buffer stream))) maxSize) /\
  fst (ResizeAsync skia (snd (ResizeAsync skia stream maxSize)) maxSize) =
    bindO (Resize skia [] (Size_Width maxSize) (Size_Height maxSize))
      (fun data => Returned (MemoryStream data)) /\
  (forall result, fst (ResizeAsync skia stream maxSize) = Returned result ->
     Position result = 0 /\
     Resize skia (skipn (Position stream) (Buffer stream))
       (Size_Width maxSize) (Size_Height maxSize) = Returned (Buffer result)).
Proof.
  unfold ResizeAsync, CopyToArray. cbn [fst snd Buffer Position MemoryStream skipn].
  split; [reflexivity|]. split.
  - rewrite skipn_all2 by apply Nat.le_max_r. reflexivity.
  - intros result.
    destruct (Resize skia _ _ _) as [data|e]; cbn [bindO]; [|discriminate].
    intros [= <-]. split; reflexivity.
Qed.

(** X9. The two dimensions are bounded one by one, so the proportions of
    the image are not kept: when only the width exceeds its maximum, the
    result has the maximum width and the height of the source, and is
    narrower in proportion than the source. *)
Theorem resize_changes_the_proportions (fileContents : list byte)
    (sourceBitmap : Skia.SKBitmap) (maxWidth maxHeight : Z) (data : list byte) :
  Skia.Decode skia fileContents = Some sourceBitmap ->
  (0 < maxWidth < Skia.Width (Skia.Info sourceBitmap))%Z ->
  (0 < Skia.Height (Skia.Info sourceBitmap) <= maxHeight)%Z ->
  Resize skia fileContents maxWidth maxHeight = Returned data ->
  exists scaledImage,
    Skia.Encode skia scaledImage = Some data /\
    Skia.Width (Skia.ImageInfo scaledImage) = maxWidth /\
    Skia.Height (Skia.ImageInfo scaledImage) = Skia.Height (Skia.Info sourceBitmap) /\
    (Skia.Width (Skia.ImageInfo scaledImage) * Skia.Height (Skia.Info sourceBitmap)
     < Skia.Width (Skia.Info sourceBitmap) * Skia.Height (Skia.ImageInfo scaledImage))%Z.
Proof.
  intros Hd Hw Hh. unfold Resize. rewrite Hd.
  destruct (scaledBitmap skia sourceBitmap maxWidth maxHeight)
    as [scaled|] eqn:Hs; [|discriminate].
  destruct (Skia.Encode skia (Skia.FromBitmap scaled)) as [d|] eqn:He;
    [|discriminate].
  intros [= <-]. exists (Skia.FromBitmap scaled).
  apply scaledBitmap_dimensions in Hs as [Ew Eh].
  cbn [Skia.FromBitmap Skia.ImageInfo]. rewrite Ew, Eh.
  rewrite (Z.min_l maxWidth) by lia. rewrite (Z.min_r maxHeight) by lia.
  repeat split; trivial. nia.
Qed.
End MoreOnTheResizer.

(* ================================================================== *)
(** * ApiOperations *)

Section ApiOperationsProperties.
Variable rt : Runtime.
Variable target : text -> RequestTarget.

Lemma not_blank_is_some (s : option text) :
  IsNullOrWhiteSpace s = false -> exists t, s = Some t.
Proof. destruct s; [eauto|discriminate]. Qed.

(** X10. The arguments are checked in the order URL, key, content: the
    first that is [null] or blank (for the content: [null]) is named by the
    [ArgumentNullException] that is thrown, and nothing is sent. *)
Theorem post_checks_its_arguments (apiUrl apiKey : option text)
    (content : option JToken) (h : History) :
  (IsNullOrWhiteSpace apiUrl = true ->
   PosAsJsonAsync rt target apiUrl apiKey content h =
     (PostThrown (ArgumentNullException (txt "apiUrl")), h)) /\
  (IsNullOrWhiteSpace apiUrl = false -> IsNullOrWhiteSpace apiKey = true ->
   PosAsJsonAsync rt target apiUrl apiKey content h =
     (PostThrown (ArgumentNullException (txt "apiKey")), h)) /\
  (IsNullOrWhiteSpace apiUrl = false -> IsNullOrWhiteSpace apiKey = false ->
   content = None ->
   PosAsJsonAsync rt target apiUrl apiKey content h =
     (PostThrown (ArgumentNullException (txt "content")), h)).
Proof.
  unfold PosAsJsonAsync. split; [|split].
  - now intros ->.
  - now intros -> ->.
  - now intros -> -> ->.
Qed.

(** X11. A request goes out only to a URL that is an absolute URI the
    client can send to: for a text that is no URI the call throws a
    [UriFormatException], for another URI the client refuses, and in both
    cases the history is as before. *)
Theorem post_needs_a_sendable_url (apiUrl apiKey : text) (content : JToken)
    (h : History) :
  IsNullOrWhiteSpace (Some apiUrl) = false ->
  IsNullOrWhiteSpace (Some apiKey) = false ->
  (target apiUrl = Malformed ->
   PosAsJsonAsync rt target (Some apiUrl) (Some apiKey) (Some content) h =
     (PostThrown UriFormatException, h)) /\
  (target apiUrl = Unsendable ->
   PosAsJsonAsync rt target (Some apiUrl) (Some apiKey) (Some content) h =
     (PostRefused, h)) /\
  (network_calls
     (snd (PosAsJsonAsync rt target (Some apiUrl) (Some apiKey) (Some content) h))
     <> network_calls h ->
   exists uri, target apiUrl = Sendable uri).
Proof.
  intros Hu Hk. unfold PosAsJsonAsync. rewrite Hu, Hk.
  split; [now intros ->|]. split; [now intros ->|].
  destruct (target apiUrl); [eauto|contradiction|contradiction].
Qed.

Lemma PosAsJsonAsync_sends (apiUrl apiKey : text) (content : JToken) (uri : Uri)
    (h : History) :
  IsNullOrWhiteSpace (Some apiUrl) = false ->
  IsNullOrWhiteSpace (Some apiKey) = false ->
  target apiUrl = Sendable uri ->
  PosAsJsonAsync rt target (Some apiUrl) (Some apiKey) (Some content) h =
  (match server rt h (apiRequest rt uri apiKey content) with
   | Some response =>
       match Http.EnsureSuccessStatusCode response with
       | Returned _ => Posted
       | Thrown e => PostThrown e
       end
   | None =>
       PostThrown (HttpRequestException
                     (txt "An error occurred while sending the request.") None)
   end,
   h ++ [RequestSent (apiRequest rt uri apiKey content)]).
Proof.
  intros Hu Hk Ht. unfold PosAsJsonAsync, SendAsync. rewrite Hu, Hk, Ht.
  destruct (server rt h _); reflexivity.
Qed.

(** X12. With arguments that pass the checks and a URL the client can
    send to, one request goes out: a POST to that URL whose body is the
    ASCII bytes of the JSON text of the content, with the content type
    application/json; the key is the value of the header x-api-key when the
    header collection takes that name and is not sent otherwise, and the
    name Content-Type is among the request headers only when the
    collection takes it there. *)
Theorem post_sends_one_request (apiUrl apiKey : text) (content : JToken)
    (uri : Uri) (h : History) :
  IsNullOrWhiteSpace (Some apiUrl) = false ->
  IsNullOrWhiteSpace (Some apiKey) = false ->
  target apiUrl = Sendable uri ->
  exists m,
    network_calls
      (snd (PosAsJsonAsync rt target (Some apiUrl) (Some apiKey) (Some content) h))
      = network_calls h ++ [m] /\
    Http.Method m = txt "POST" /\
    Http.RequestUri m = uri /\
    Http.Bytes (Http.Content m) = ASCII.GetBytes (Json.WriteToken content) /\
    Http.TryGetValues (txt "Content-Type") (Http.ContentHeaders (Http.Content m)) =
      Some [txt "application/json; charset=us-ascii"] /\
    Http.TryGetValues (txt "x-api-key") (Http.Headers m) =
      (if requestHeaderAllowed rt (txt "x-api-key") then Some [apiKey] else None) /\
    Http.TryGetValues (txt "Content-Type") (Http.Headers m) =
      (if requestHeaderAllowed rt (txt "Content-Type")
       then Some [txt "application/json"] else None).
Proof.
  intros Hu Hk Ht. exists (apiRequest rt uri apiKey content).
  rewrite (@PosAsJsonAsync_sends apiUrl apiKey content uri h Hu Hk Ht). cbn [snd].
  rewrite network_calls_app. split; [reflexivity|].
  unfold apiRequest, Http.TryAddWithoutValidation.
  change Aws.HeaderKeys.ContentTypeHeader with (txt "Content-Type").
  destruct (requestHeaderAllowed rt (txt "x-api-key")),
           (requestHeaderAllowed rt (txt "Content-Type"));
    repeat split; reflexivity.
Qed.

(** X13. The call returns for a response with a status of 200 to 299;
    for another status it throws the exception of
    [EnsureSuccessStatusCode] with that status, and when no response
    arrives the exception of [SendAsync]; the request is not sent again. *)
Theorem post_outcome (apiUrl apiKey : text) (content : JToken) (uri : Uri)
    (h : History) :
  IsNullOrWhiteSpace (Some apiUrl) = false ->
  IsNullOrWhiteSpace (Some apiKey) = false ->
  target apiUrl = Sendable uri ->
  List.length
    (network_calls
       (snd (PosAsJsonAsync rt target (Some apiUrl) (Some apiKey) (Some content) h)))
    = S (List.length (network_calls h)) /\
  (forall response,
     server rt h (apiRequest rt uri apiKey content) = Some response ->
     ((200 <= Http.StatusCode response <= 299)%Z ->
      fst (PosAsJsonAsync rt target (Some apiUrl) (Some apiKey) (Some content) h)
        = Posted) /\
     (~ (200 <= Http.StatusCode response <= 299)%Z ->
      exists message,
        fst (PosAsJsonAsync rt target (Some apiUrl) (Some apiKey) (Some content) h)
          = PostThrown (HttpRequestException message
                          (Some (Http.StatusCode response))))) /\
  (server rt h (apiRequest rt uri apiKey content) = None ->
   exists message,
     fst (PosAsJsonAsync rt target (Some apiUrl) (Some apiKey) (Some content) h)
       = PostThrown (HttpRequestException message None)).
Proof.
  intros Hu Hk Ht.
  rewrite (@PosAsJsonAsync_sends apiUrl apiKey content uri h Hu Hk Ht). cbn [fst snd].
  split; [|split].
  - rewrite network_calls_app, length_app. cbn. lia.
  - intros response ->.
    unfold Http.EnsureSuccessStatusCode, Http.IsSuccessStatusCode.
    destruct (Z.leb_spec 200 (Http.StatusCode response)),
             (Z.leb_spec (Http.StatusCode response) 299);
      cbn [andb]; split; intros; eauto; lia.
  - intros ->. eauto.
Qed.

(** X14. The content is a JSON value as the serializer writes the object:
    null, a boolean, an integer, another number by its decimal text, a
    string, a sequence or an object.  When its strings (the names of
    properties included) have ASCII characters only and none of its
    numbers is NaN or an infinity, a JSON reader gives the content back
    from the body that is sent. *)
Theorem post_body_reads_back (uri : Uri) (apiKey : text) (content : JToken) :
  Json.ascii_token content = true ->
  Json.finite_token content = true ->
  Json.Parse
    (ASCII.GetString (Http.Bytes (Http.Content (apiRequest rt uri apiKey content))))
    = Some content.
Proof.
  intros Ha Hn.
  change (Http.Bytes (Http.Content (apiRequest rt uri apiKey content)))
    with (ASCII.GetBytes (Json.WriteToken content)).
  rewrite ASCIIFacts.GetString_GetBytes
    by now apply JsonFacts.is_ascii_WriteToken.
  now apply JsonFacts.Parse_WriteToken.
Qed.
End ApiOperationsProperties.

(* ================================================================== *)
(** * The resource suppressions *)

Module CdkFacts.
Import Cdk.

Lemma startsWith_app (prefix rest : text) : startsWith (prefix ++ rest) prefix = true.
Proof.
  induction prefix as [|c prefix IH]; [now destruct rest|].
  cbn [app startsWith]. now rewrite N.eqb_refl, IH.
Qed.

Lemma startsWith_iff (s prefix : text) :
  startsWith s prefix = true <-> exists rest, s = prefix ++ rest.
Proof.
  split.
  - revert s. induction prefix as [|c prefix IH]; intros s H; [now exists s|].
    destruct s as [|d s]; [discriminate|]. cbn [startsWith] in H.
    apply andb_prop in H as [Hc Hs]. apply N.eqb_eq in Hc as ->.
    destruct (IH s Hs) as [rest ->]. now exists rest.
  - intros [rest ->]. apply startsWith_app.
Qed.

(** [endsWith] holds of the texts that have the suffix at their end. *)
Lemma endsWith_iff (s suffix : text) :
  endsWith s suffix = true <-> exists front, s = front ++ suffix.
Proof.
  unfold endsWith. rewrite startsWith_iff. split.
  - intros [rest H]. exists (rev rest).
    rewrite <- (rev_involutive s), H, rev_app_distr, rev_involutive. reflexivity.
  - intros [front ->]. exists (rev front). apply rev_app_distr.
Qed.

(** X15. A path that ends with ServiceRole/Resource is suppressed under
    AwsSolutions-IAM4 and one that ends with DefaultPolicy/Resource under
    AwsSolutions-IAM5, with the longer reason; no path ends with both, so
    that a default policy of a service role (ServiceRole/DefaultPolicy/
    Resource) comes under IAM5.  Every other path comes under
    AwsSolutions-L1; the reason always starts with the same sentence. *)
Theorem suppression_by_suffix (resourcePath : text) :
  (endsWith resourcePath (txt "ServiceRole/Resource") = true ->
   endsWith resourcePath (txt "DefaultPolicy/Resource") = true -> False) /\
  (forall front,
     suppression (front ++ txt "ServiceRole/Resource") =
       (txt "AwsSolutions-IAM4", managedByCdk)) /\
  (forall front,
     suppression (front ++ txt "DefaultPolicy/Resource") =
       (txt "AwsSolutions-IAM5", managedByCdk ++ laxByDesign)) /\
  (endsWith resourcePath (txt "ServiceRole/Resource") = false ->
   endsWith resourcePath (txt "DefaultPolicy/Resource") = false ->
   suppression resourcePath = (txt "AwsSolutions-L1", managedByCdk)) /\
  startsWith (snd (suppression resourcePath)) managedByCdk = true.
Proof.
  assert (apart : forall front,
            endsWith (front ++ txt "DefaultPolicy/Resource")
              (txt "ServiceRole/Resource") = false).
  { intros front. unfold endsWith. rewrite rev_app_distr. reflexivity. }
  split; [|split; [|split; [|split]]].
  - intros H1 H2. apply endsWith_iff in H2 as [front ->].
    rewrite apart in H1. discriminate.
  - intros front. unfold suppression.
    now rewrite (proj2 (endsWith_iff _ _) (ex_intro _ front eq_refl)).
  - intros front. unfold suppression. rewrite apart.
    now rewrite (proj2 (endsWith_iff _ _) (ex_intro _ front eq_refl)).
  - intros H1 H2. unfold suppression. now rewrite H1, H2.
  - unfold suppression.
    destruct (endsWith resourcePath (txt "ServiceRole/Resource"));
      [reflexivity|].
    destruct (endsWith resourcePath (txt "DefaultPolicy/Resource"));
      [|reflexivity].
    apply startsWith_app.
Qed.
End CdkFacts.

(* ================================================================== *)
(** * The further theorems at the sample collaborators *)

(** X1 for a server that does not answer. *)
Lemma transport_failure_surfaces_witness :
  credentialChain Fixtures.unreachable [] = Some Sample.credentials /\
  server Fixtures.unreachable
    (historyOf Sample.dispatcher Sample.ping Sample.Ping [] Sample.credentials [])
    (messageOf Fixtures.unreachable Sample.dispatcher Sample.ping Sample.Ping []
       Sample.credentials []) = None /\
  fst (RunGraphql Fixtures.unreachable Sample.dispatcher Sample.ping Sample.Ping [] [])
    = Thrown (HttpRequestException
                (txt "An error occurred while sending the request.") None).
Proof.
  split; [reflexivity|]. split; [reflexivity|].
  exact (proj1 (@transport_failure_surfaces Fixtures.unreachable Sample.dispatcher
                  Sample.ping Sample.Ping [] [] Sample.credentials eq_refl eq_refl)).
Defined.

(** X4 for the query with the letter e-acute. *)
Lemma non_ascii_is_sent_as_question_witness :
  existsb sent_as_question Sample.accented = true /\
  on_the_wire Sample.accented = Sample.questioned /\
  on_the_wire Sample.accented <> Sample.accented /\
  Http.Bytes
    (Http.Content
       (messageOf Sample.healthy Sample.dispatcher Sample.accented Sample.Ping []
          Sample.credentials [])) =
  Http.Bytes
    (Http.Content
       (messageOf Sample.healthy Sample.dispatcher (on_the_wire Sample.accented)
          (on_the_wire Sample.Ping) [] Sample.credentials [])).
Proof.
  split; [reflexivity|]. split; [reflexivity|].
  destruct (non_ascii_is_sent_as_question Sample.healthy Sample.dispatcher
              Sample.accented Sample.Ping [] Sample.credentials []) as [Same Other].
  split; [exact (Other eq_refl)|exact Same].
Defined.

(** X5 with an unknown region name as the argument, and without argument
    in a process without [AWS_REGION]. *)
Lemma construction_succeeds_iff_witness :
  (exists this,
     AppSyncOperations_new Sample.runtime_without_region
       (Some Sample.endpointText) (Some (txt "mars-1")) = Returned this) /\
  ~ (exists this,
       AppSyncOperations_new Sample.runtime_without_region
         (Some Sample.endpointText) None = Returned this).
Proof.
  split.
  - apply (proj2 (construction_succeeds_iff Sample.runtime_without_region
                    (Some Sample.endpointText) (Some (txt "mars-1")))).
    split; [exists Sample.endpointText, Sample.endpoint; split; reflexivity|].
    left. reflexivity.
  - intros H.
    apply (proj1 (construction_succeeds_iff Sample.runtime_without_region
                    (Some Sample.endpointText) None)) in H.
    destruct H as [_ [H|[name H]]]; discriminate H.
Defined.

(** X6 for the image of 4 by 2 and the maximum 3 by 5. *)
Lemma resize_returns_iff_witness :
  Resize Sample.skia Sample.picture 3 5 =
    Returned [x03; x02; x00; x00; x00; x00; x00; x00].
Proof.
  apply (proj2 (resize_returns_iff Sample.skia Sample.picture 3 5
                  [x03; x02; x00; x00; x00; x00; x00; x00])).
  exists Fixtures.bitmap4x2, [x00; x00; x00; x00; x00; x00].
  repeat split; reflexivity.
Defined.

(** X7 for data of one byte, and for the image of 4 by 2 with a maximum
    width of 0. *)
Lemma resize_failures_witness :
  Skia.Decode Sample.skia [x01] = None /\
  Resize Sample.skia [x01] 3 5 = Thrown NullReferenceException /\
  Skia.Decode Sample.skia Sample.picture = Some Fixtures.bitmap4x2 /\
  Resize Sample.skia Sample.picture 0 5 =
    Thrown (ArgumentNullException (txt "bitmap")).
Proof.
  split; [reflexivity|].
  split; [exact (proj1 (resize_failures Sample.skia [x01] 3 5) eq_refl)|].
  split; [reflexivity|].
  refine (proj2 (proj2 (resize_failures Sample.skia Sample.picture 0 5)
                   Fixtures.bitmap4x2 eq_refl _)).
  left. lia.
Defined.

(** X8 for a stream of one byte to skip and the image of 4 by 2. *)
Lemma resize_async_consumes_the_stream_witness :
  fst (ResizeAsync Sample.skia
         {| Buffer := xff :: Sample.picture; Position := 1 |}
         {| Size_Width := 3; Size_Height := 5 |}) =
    Returned (MemoryStream [x03; x02; x00; x00; x00; x00; x00; x00]) /\
  Resize Sample.skia Sample.picture 3 5 =
    Returned [x03; x02; x00; x00; x00; x00; x00; x00] /\
  fst (ResizeAsync Sample.skia
         (snd (ResizeAsync Sample.skia
                 {| Buffer := xff :: Sample.picture; Position := 1 |}
                 {| Size_Width := 3; Size_Height := 5 |}))
         {| Size_Width := 3; Size_Height := 5 |}) =
    Thrown NullReferenceException.
Proof.
  split; [reflexivity|].
  destruct (resize_async_consumes_the_stream Sample.skia
              {| Buffer := xff :: Sample.picture; Position := 1 |}
              {| Size_Width := 3; Size_Height := 5 |}) as (_ & Again & Result).
  split; [exact (proj2 (Result _ eq_refl))|].
  rewrite Again. reflexivity.
Defined.

(** X9 for the image of 4 by 2 and the maximum 3 by 5. *)
Lemma resize_changes_the_proportions_witness :
  Skia.Decode Sample.skia Sample.picture = Some Fixtures.bitmap4x2 /\
  Resize Sample.skia Sample.picture 3 5 =
    Returned [x03; x02; x00; x00; x00; x00; x00; x00] /\
  exists scaledImage,
    Skia.Encode Sample.skia scaledImage =
      Some [x03; x02; x00; x00; x00; x00; x00; x00] /\
    Skia.Width (Skia.ImageInfo scaledImage) = 3%Z /\
    Skia.Height (Skia.ImageInfo scaledImage) = 2%Z.
Proof.
  split; [reflexivity|]. split; [reflexivity|].
  destruct (@resize_changes_the_proportions Sample.skia Sample.picture
              Fixtures.bitmap4x2 3 5 [x03; x02; x00; x00; x00; x00; x00; x00]
              eq_refl ltac:(cbn; lia) ltac:(cbn; lia) eq_refl)
    as (scaledImage & He & Hw & Hh & _).
  exists scaledImage. split; [exact He|]. split; [exact Hw|exact Hh].
Defined.

(** X10 for a blank URL, a key that is [null] and a content that is
    [null]. *)
Lemma post_checks_its_arguments_witness :
  PosAsJsonAsync Sample.healthy Fixtures.target (Some (txt " ")) None None [] =
    (PostThrown (ArgumentNullException (txt "apiUrl")), []) /\
  PosAsJsonAsync Sample.healthy Fixtures.target (Some Fixtures.reportUrl) None None [] =
    (PostThrown (ArgumentNullException (txt "apiKey")), []) /\
  PosAsJsonAsync Sample.healthy Fixtures.target (Some Fixtures.reportUrl)
    (Some (txt "k")) None [] =
    (PostThrown (ArgumentNullException (txt "content")), []).
Proof.
  split; [|split].
  - exact (proj1 (post_checks_its_arguments Sample.healthy Fixtures.target
                    (Some (txt " ")) None None []) eq_refl).
  - exact (proj1 (proj2 (post_checks_its_arguments Sample.healthy Fixtures.target
                           (Some Fixtures.reportUrl) None None []))
             eq_refl eq_refl).
  - exact (proj2 (proj2 (post_checks_its_arguments Sample.healthy Fixtures.target
                           (Some Fixtures.reportUrl) (Some (txt "k")) None []))
             eq_refl eq_refl eq_refl).
Defined.

(** X11 for the relative URL [report] and for the text [http://], which
    is no URI. *)
Lemma post_needs_a_sendable_url_witness :
  PosAsJsonAsync Sample.healthy Fixtures.target (Some (txt "report"))
    (Some (txt "k")) (Some Fixtures.report) [] = (PostRefused, []) /\
  PosAsJsonAsync Sample.healthy Fixtures.target (Some (txt "http://"))
    (Some (txt "k")) (Some Fixtures.report) [] = (PostThrown UriFormatException, []).
Proof.
  split.
  - exact (proj1 (proj2 (@post_needs_a_sendable_url Sample.healthy Fixtures.target
                           (txt "report") (txt "k") Fixtures.report []
                           eq_refl eq_refl)) eq_refl).
  - exact (proj1 (@post_needs_a_sendable_url Sample.healthy Fixtures.target
                    (txt "http://") (txt "k") Fixtures.report []
                    eq_refl eq_refl) eq_refl).
Defined.

(** X12 for the report URL: the key is sent, and the header collection,
    which does not take the name Content-Type, has no such header. *)
Lemma post_sends_one_request_witness :
  exists m,
    network_calls
      (snd (PosAsJsonAsync Sample.healthy Fixtures.target (Some Fixtures.reportUrl)
              (Some (txt "k")) (Some Fixtures.report) [])) = [m] /\
    Http.RequestUri m = Fixtures.reportUri /\
    Http.TryGetValues (txt "x-api-key") (Http.Headers m) = Some [txt "k"] /\
    Http.TryGetValues (txt "Content-Type") (Http.Headers m) = None.
Proof.
  destruct (@post_sends_one_request Sample.healthy Fixtures.target
              Fixtures.reportUrl (txt "k") Fixtures.report Fixtures.reportUri []
              eq_refl eq_refl eq_refl)
    as (m & Hn & _ & Hu & _ & _ & Hk & Hc).
  exists m. split; [exact Hn|]. split; [exact Hu|]. split; [exact Hk|exact Hc].
Defined.

(** X13 for a server that answers 403. *)
Lemma post_outcome_witness :
  server Sample.refusing []
    (apiRequest Sample.refusing Fixtures.reportUri (txt "k") Fixtures.report)
    = Some Sample.forbidden /\
  exists message,
    fst (PosAsJsonAsync Sample.refusing Fixtures.target (Some Fixtures.reportUrl)
           (Some (txt "k")) (Some Fixtures.report) []) =
    PostThrown (HttpRequestException message (Some 403%Z)).
Proof.
  split; [reflexivity|].
  destruct (@post_outcome Sample.refusing Fixtures.target
              Fixtures.reportUrl (txt "k") Fixtures.report Fixtures.reportUri []
              eq_refl eq_refl eq_refl) as (_ & Answered & _).
  apply (proj2 (Answered Sample.forbidden eq_refl)). cbn. lia.
Defined.

(** X14 for the sample report, which has the number 0.5. *)
Lemma post_body_reads_back_witness :
  Json.ascii_token Fixtures.report = true /\
  Json.finite_token Fixtures.report = true /\
  Json.Parse
    (ASCII.GetString
       (Http.Bytes
          (Http.Content
             (apiRequest Sample.healthy Fixtures.reportUri (txt "k") Fixtures.report))))
    = Some Fixtures.report.
Proof.
  split; [reflexivity|]. split; [reflexivity|].
  exact (@post_body_reads_back Sample.healthy Fixtures.reportUri (txt "k")
           Fixtures.report eq_refl eq_refl).
Defined.

(** X15 for two paths of the stack. *)
Lemma suppression_by_suffix_witness :
  Cdk.suppression
    (txt "InfraStack/traffic-generator/DummyUsersProvider/framework-onEvent/ServiceRole/"
     ++ txt "DefaultPolicy/Resource") =
    (txt "AwsSolutions-IAM5", Cdk.managedByCdk ++ Cdk.laxByDesign) /\
  Cdk.suppression
    (txt "InfraStack/traffic-generator/DummyUsersProvider/framework-onEvent/Resource") =
    (txt "AwsSolutions-L1", Cdk.managedByCdk).
Proof.
  split.
  - exact (proj1 (proj2 (proj2 (CdkFacts.suppression_by_suffix [])))
             (txt "InfraStack/traffic-generator/DummyUsersProvider/framework-onEvent/ServiceRole/")).
  - exact (proj1 (proj2 (proj2 (proj2
             (CdkFacts.suppression_by_suffix
                (txt "InfraStack/traffic-generator/DummyUsersProvider/framework-onEvent/Resource")))))
             eq_refl eq_refl).
Defined.
